(** * Verification of [verifyResponse] (fonepay-node, src/core/verifyResponse.ts)

    The development embeds the response verifier of the package together with
    the parts of the JavaScript and Node.js runtime it relies on:

    - JavaScript values, truthiness, property reads, the [in] operator,
      the conversion to a string, which can fail, and [Array.prototype.join];
    - payloads with accessor properties, whose reads can throw;
    - Node's [Buffer.from(_, "hex")] and [crypto.timingSafeEqual];
    - HMAC-SHA512 (FIPS 180-4, RFC 2104), executable inside Rocq;
    - exceptions, [try]/[catch] and the console as a small writer/error
      monad; the [catch] block reads the message of what it caught, which
      can throw again.

    The verifier imports two names that are not among the sources, the
    constant [RESPONSE_CODE.SUCCESSFUL] and the helper [generateHmacSha512].
    Both are parameters of the verifier here; a theorem that depends on what
    the helper returns says so with the premise [computes_hmac].

    Strings are sequences of 8-bit code units (the Latin-1 range of
    JavaScript strings); the keyed hash sees their UTF-8 encoding.  Node's
    hex decoder looks at the low byte of a code unit only, so that on a
    string with wider code units it can find hex digits where there are
    none: what is proved of a [DV] that is not well-formed hex is proved of
    strings of the 8-bit range. *)

From Stdlib Require Import ZArith Lia Ascii List.
From Stdlib.Strings Require Import Byte.
From stdpp Require Import gmap strings list.

Set Warnings "-register-all".
Local Open Scope Z_scope.

(** ** Bytes *)

Definition byte_of_Z (z : Z) : byte :=
  match Byte.of_N (Z.to_N (Z.land z 255)) with
  | Some b => b
  | None => x00
  end.

Definition Z_of_byte (b : byte) : Z := Z.of_N (Byte.to_N b).

(** ** SHA-512 (FIPS 180-4) on 64-bit words held in [Z] *)

Module SHA512.

Definition mask64 : Z := 0xffffffffffffffff.

Definition add64 (x y : Z) : Z := Z.land (x + y) mask64.

Definition rotr (n x : Z) : Z :=
  Z.lor (Z.shiftr x n) (Z.land (Z.shiftl x (64 - n)) mask64).

Definition Ch (x y z : Z) : Z :=
  Z.lxor (Z.land x y) (Z.land (Z.lxor x mask64) z).

Definition Maj (x y z : Z) : Z :=
  Z.lxor (Z.lxor (Z.land x y) (Z.land x z)) (Z.land y z).

Definition Sigma0 (x : Z) : Z :=
  Z.lxor (Z.lxor (rotr 28 x) (rotr 34 x)) (rotr 39 x).

Definition Sigma1 (x : Z) : Z :=
  Z.lxor (Z.lxor (rotr 14 x) (rotr 18 x)) (rotr 41 x).

Definition sigma0 (x : Z) : Z :=
  Z.lxor (Z.lxor (rotr 1 x) (rotr 8 x)) (Z.shiftr x 7).

Definition sigma1 (x : Z) : Z :=
  Z.lxor (Z.lxor (rotr 19 x) (rotr 61 x)) (Z.shiftr x 6).

Definition K : list Z :=
  [ 0x428a2f98d728ae22; 0x7137449123ef65cd; 0xb5c0fbcfec4d3b2f; 0xe9b5dba58189dbbc;
    0x3956c25bf348b538; 0x59f111f1b605d019; 0x923f82a4af194f9b; 0xab1c5ed5da6d8118;
    0xd807aa98a3030242; 0x12835b0145706fbe; 0x243185be4ee4b28c; 0x550c7dc3d5ffb4e2;
    0x72be5d74f27b896f; 0x80deb1fe3b1696b1; 0x9bdc06a725c71235; 0xc19bf174cf692694;
    0xe49b69c19ef14ad2; 0xefbe4786384f25e3; 0x0fc19dc68b8cd5b5; 0x240ca1cc77ac9c65;
    0x2de92c6f592b0275; 0x4a7484aa6ea6e483; 0x5cb0a9dcbd41fbd4; 0x76f988da831153b5;
    0x983e5152ee66dfab; 0xa831c66d2db43210; 0xb00327c898fb213f; 0xbf597fc7beef0ee4;
    0xc6e00bf33da88fc2; 0xd5a79147930aa725; 0x06ca6351e003826f; 0x142929670a0e6e70;
    0x27b70a8546d22ffc; 0x2e1b21385c26c926; 0x4d2c6dfc5ac42aed; 0x53380d139d95b3df;
    0x650a73548baf63de; 0x766a0abb3c77b2a8; 0x81c2c92e47edaee6; 0x92722c851482353b;
    0xa2bfe8a14cf10364; 0xa81a664bbc423001; 0xc24b8b70d0f89791; 0xc76c51a30654be30;
    0xd192e819d6ef5218; 0xd69906245565a910; 0xf40e35855771202a; 0x106aa07032bbd1b8;
    0x19a4c116b8d2d0c8; 0x1e376c085141ab53; 0x2748774cdf8eeb99; 0x34b0bcb5e19b48a8;
    0x391c0cb3c5c95a63; 0x4ed8aa4ae3418acb; 0x5b9cca4f7763e373; 0x682e6ff3d6b2b8a3;
    0x748f82ee5defb2fc; 0x78a5636f43172f60; 0x84c87814a1f0ab72; 0x8cc702081a6439ec;
    0x90befffa23631e28; 0xa4506cebde82bde9; 0xbef9a3f7b2c67915; 0xc67178f2e372532b;
    0xca273eceea26619c; 0xd186b8c721c0c207; 0xeada7dd6cde0eb1e; 0xf57d4f7fee6ed178;
    0x06f067aa72176fba; 0x0a637dc5a2c898a6; 0x113f9804bef90dae; 0x1b710b35131c471b;
    0x28db77f523047d84; 0x32caab7b40c72493; 0x3c9ebe0a15c9bebc; 0x431d67c49c100d4c;
    0x4cc5d4becb3e42b6; 0x597f299cfc657e2a; 0x5fcb6fab3ad6faec; 0x6c44198c4a475817 ].

(** The eight working variables, also the chaining value. *)
Record state : Type := State {
  sa : Z; sb : Z; sc : Z; sd : Z; se : Z; sf : Z; sg : Z; sh : Z
}.

Definition H0 : state :=
  State 0x6a09e667f3bcc908 0xbb67ae8584caa73b 0x3c6ef372fe94f82b 0xa54ff53a5f1d36f1
        0x510e527fade682d1 0x9b05688c2b3e6c1f 0x1f83d9abfb41bd6b 0x5be0cd19137e2179.

Definition word_at (w : list Z) (i : nat) : Z := nth i w 0.

(** One round: [w] holds W(t) .. W(t+15); the window slides by one word. *)
Definition round (k : Z) (w : list Z) (s : state) : list Z * state :=
  let wt := word_at w 0 in
  let wnext :=
    add64 (add64 (sigma1 (word_at w 14)) (word_at w 9))
          (add64 (sigma0 (word_at w 1)) wt) in
  let T1 :=
    add64 (add64 (add64 (sh s) (Sigma1 (se s))) (Ch (se s) (sf s) (sg s)))
          (add64 k wt) in
  let T2 := add64 (Sigma0 (sa s)) (Maj (sa s) (sb s) (sc s)) in
  (tl w ++ [wnext],
   State (add64 T1 T2) (sa s) (sb s) (sc s) (add64 (sd s) T1) (se s) (sf s) (sg s)).

Fixpoint rounds (ks : list Z) (w : list Z) (s : state) : state :=
  match ks with
  | [] => s
  | k :: ks' => let '(w', s') := round k w s in rounds ks' w' s'
  end.

Definition compress (h : state) (block : list Z) : state :=
  let s := rounds K block h in
  State (add64 (sa h) (sa s)) (add64 (sb h) (sb s)) (add64 (sc h) (sc s))
        (add64 (sd h) (sd s)) (add64 (se h) (se s)) (add64 (sf h) (sf s))
        (add64 (sg h) (sg s)) (add64 (sh h) (sh s)).

(** Big-endian packing of bytes into 64-bit words. *)
Fixpoint words_of_bytes (l : list Z) : list Z :=
  match l with
  | b0 :: b1 :: b2 :: b3 :: b4 :: b5 :: b6 :: b7 :: rest =>
      (Z.lor (Z.shiftl b0 56) (Z.lor (Z.shiftl b1 48) (Z.lor (Z.shiftl b2 40)
      (Z.lor (Z.shiftl b3 32) (Z.lor (Z.shiftl b4 24) (Z.lor (Z.shiftl b5 16)
      (Z.lor (Z.shiftl b6 8) b7))))))) :: words_of_bytes rest
  | _ => []
  end.

Definition bytes_of_word (w : Z) : list byte :=
  map (fun sh => byte_of_Z (Z.shiftr w sh)) [56; 48; 40; 32; 24; 16; 8; 0].

(** Padding: a one bit, zeros up to 112 modulo 128, the bit length on
    128 bits. *)
Definition pad (msg : list Z) : list Z :=
  let len := Z.of_nat (length msg) in
  let zeros := Z.to_nat ((111 - len) mod 128) in
  msg ++ [128] ++ repeat 0 zeros ++ repeat 0 8
      ++ map (fun sh => Z.land (Z.shiftr (8 * len) sh) 255)
             [56; 48; 40; 32; 24; 16; 8; 0].

Fixpoint blocks (n : nat) (h : state) (ws : list Z) : state :=
  match n with
  | O => h
  | S n' => blocks n' (compress h (firstn 16 ws)) (skipn 16 ws)
  end.

Definition digest_state (msg : list byte) : state :=
  let ws := words_of_bytes (pad (map Z_of_byte msg)) in
  blocks (Nat.div (length ws) 16) H0 ws.

Definition digest (msg : list byte) : list byte :=
  let s := digest_state msg in
  bytes_of_word (sa s) ++ bytes_of_word (sb s) ++ bytes_of_word (sc s)
    ++ bytes_of_word (sd s) ++ bytes_of_word (se s) ++ bytes_of_word (sf s)
    ++ bytes_of_word (sg s) ++ bytes_of_word (sh s).

End SHA512.

(** ** HMAC (RFC 2104) over SHA-512, block size 128 bytes *)

Definition xor_byte (c : Z) (b : byte) : byte := byte_of_Z (Z.lxor c (Z_of_byte b)).

Definition hmac_key_block (key : list byte) : list byte :=
  let k := if (128 <? Z.of_nat (length key)) then SHA512.digest key else key in
  k ++ repeat x00 (128 - length k)%nat.

Definition hmac_sha512 (key msg : list byte) : list byte :=
  let kb := hmac_key_block key in
  SHA512.digest (map (xor_byte 0x5c) kb
                  ++ SHA512.digest (map (xor_byte 0x36) kb ++ msg)).

Arguments hmac_sha512 : simpl never.

(** ** Hex *)

Definition hex_digit (n : Z) : ascii :=
  ascii_of_nat (Z.to_nat (if n <? 10 then 48 + n else 87 + n)).

Definition hex_of_byte (b : byte) : list ascii :=
  let n := Z_of_byte b in [hex_digit (n / 16); hex_digit (n mod 16)].

(** [digest("hex")]: two lower-case digits per byte. *)
Definition hex_encode (bs : list byte) : string :=
  String.string_of_list_ascii (flat_map hex_of_byte bs).

Definition bytes_of_ascii_string (s : string) : list byte :=
  map byte_of_ascii (String.list_ascii_of_string s).

(** ** JavaScript values

    Data values: [undefined], [null], booleans, strings, arrays and plain
    objects.  An object is the finite map of its own properties, all data
    properties; it inherits from [Object.prototype], none of whose names the
    verifier reads.  There are no functions among the values, so an own
    property [toString] is never callable. *)

Inductive value : Type :=
  | VUndefined
  | VNull
  | VBool (b : bool)
  | VString (s : string)
  | VArray (elems : list value)
  | VObject (props : gmap string value).

(** ToBoolean. *)
Definition truthy (v : value) : bool :=
  match v with
  | VUndefined | VNull => false
  | VBool b => b
  | VString s => negb (String.eqb s "")
  | VArray _ | VObject _ => true
  end.

(** [v === s] for a string [s]: no conversion takes place. *)
Definition strict_eq_string (v : value) (s : string) : bool :=
  match v with
  | VString t => String.eqb t s
  | _ => false
  end.

(** ** Exceptions, the console, and the monad of the verifier *)

(** What can be thrown: the errors of the source and of the runtime, an error
    object whose [message] is an accessor that throws in turn, and a value
    that is not an [Error] at all. *)
Inductive exn : Type :=
  | Error (message : string)
  | TypeError (origin : string)
  | RangeError (origin : string)
  | Unreadable (inner : exn)
  | Thrown (v : value).

(** What a run does besides returning: the two console calls of the source
    and the computation of a keyed hash. *)
Inductive event : Type :=
  | ConsoleInfo (rc : value)
  | ConsoleError (e : exn)
  | HmacComputed (key data : string).

Inductive outcome (A : Type) : Type :=
  | Return (a : A)
  | Throw (e : exn).
Arguments Return {A} a.
Arguments Throw {A} e.

Definition M (A : Type) : Type := (list event * outcome A)%type.

#[export] Instance M_ret : MRet M := fun A a => ([], Return a).

#[export] Instance M_bind : MBind M := fun A B k m =>
  match m with
  | (tr, Return a) => let '(tr', r) := k a in (tr ++ tr', r)
  | (tr, Throw e) => (tr, Throw e)
  end.

Definition throw {A : Type} (e : exn) : M A := ([], Throw e).

Definition emit (ev : event) : M unit := ([ev], Return tt).

Definition lift {A : Type} (o : outcome A) : M A := ([], o).

(** [try { body } catch (e) { handler e }] *)
Definition try_catch {A : Type} (body : M A) (handler : exn -> M A) : M A :=
  match body with
  | (tr, Throw e) => let '(tr', r) := handler e in (tr ++ tr', r)
  | (tr, Return a) => (tr, Return a)
  end.

Definition trace {A : Type} (m : M A) : list event := fst m.
Definition result {A : Type} (m : M A) : outcome A := snd m.

Fixpoint filterM {A : Type} (p : A -> M bool) (l : list A) : M (list A) :=
  match l with
  | [] => mret []
  | x :: l' =>
      b ← p x;
      rest ← filterM p l';
      mret (if b : bool then x :: rest else rest)
  end.

(** ** Conversion to string *)

(** The pieces of a join, the first failure winning. *)
Fixpoint join_outcomes (sep : string) (l : list (outcome string)) : outcome string :=
  match l with
  | [] => Return ""%string
  | [o] => o
  | o :: rest =>
      match o with
      | Throw e => Throw e
      | Return s =>
          match join_outcomes sep rest with
          | Throw e => Throw e
          | Return t => Return (s +:+ sep +:+ t)%string
          end
      end
  end.

(** ToString.  An object goes through [toString] and [valueOf]: with an own
    [toString], which is not callable here, and [valueOf] returning the
    object itself, the conversion is a TypeError; otherwise the inherited
    [toString] answers.  Inside an array [undefined] and [null] print as
    nothing. *)
Fixpoint ToString (v : value) : outcome string :=
  match v with
  | VUndefined => Return "undefined"%string
  | VNull => Return "null"%string
  | VBool true => Return "true"%string
  | VBool false => Return "false"%string
  | VString s => Return s
  | VArray elems =>
      join_outcomes ","
        (map (fun x => match x with
                       | VUndefined | VNull => Return ""%string
                       | _ => ToString x
                       end) elems)
  | VObject props =>
      match props !! "toString"%string with
      | Some _ => Throw (TypeError "Cannot convert object to primitive value")
      | None => Return "[object Object]"%string
      end
  end.

(** [Array.prototype.join]. *)
Definition join_element (v : value) : outcome string :=
  match v with
  | VUndefined | VNull => Return ""%string
  | _ => ToString v
  end.

Definition Array_join (sep : string) (elems : list value) : outcome string :=
  join_outcomes sep (map join_element elems).

(** [error instanceof Error ? error.message : "Unknown error occurred"] *)
Definition errorMessage (error : exn) : outcome string :=
  match error with
  | Error message => Return message
  | TypeError origin | RangeError origin => Return origin
  | Unreadable inner => Throw inner
  | Thrown _ => Return "Unknown error occurred"%string
  end.

(** An error whose message can be read. *)
Definition readable (error : exn) : Prop :=
  exists message, errorMessage error = Return message.

(** ** Runtime primitives *)

(** [v[key]] for the field names of a response: none of them is a property
    of a boolean, a string or an array. *)
Definition get (v : value) (key : string) : M value :=
  match v with
  | VUndefined | VNull => throw (TypeError "property read")
  | VObject props => mret (default VUndefined (props !! key))
  | VBool _ | VString _ | VArray _ => mret VUndefined
  end.

(** [key in v] for the field names of a response. *)
Definition has_property (key : string) (v : value) : M bool :=
  match v with
  | VObject props => mret (match props !! key with Some _ => true | None => false end)
  | VArray _ => mret false
  | _ => throw (TypeError "in")
  end.

(** ** Payloads

    What the caller hands to the verifier as [response]: a data value, or an
    object some of whose properties are accessors.  A getter that returns is
    a data property for the verifier, so a getter here is one that throws. *)
Inductive property : Type :=
  | Data (v : value)
  | Getter (thrown : exn).

Inductive payload : Type :=
  | Plain (v : value)
  | Exotic (props : gmap string property).

Definition truthy_payload (response : payload) : bool :=
  match response with
  | Plain v => truthy v
  | Exotic _ => true
  end.

(** [response[key]] *)
Definition read (response : payload) (key : string) : M value :=
  match response with
  | Plain v => get v key
  | Exotic props =>
      match props !! key with
      | Some (Data v) => mret v
      | Some (Getter e) => throw e
      | None => mret VUndefined
      end
  end.

(** [key in response] *)
Definition has (key : string) (response : payload) : M bool :=
  match response with
  | Plain v => has_property key v
  | Exotic props => mret (match props !! key with Some _ => true | None => false end)
  end.

(** Every getter of the payload throws an error with a readable message. *)
Definition payload_readable (response : payload) : Prop :=
  match response with
  | Plain _ => True
  | Exotic props => forall key e, props !! key = Some (Getter e) -> readable e
  end.

(** A helper, or a conversion, that throws readable errors only. *)
Definition throws_readable {A : Type} (m : M A) : Prop :=
  forall e, result m = Throw e -> readable e.

(** UTF-8 of a string of 8-bit code units. *)
Definition utf8_unit (c : ascii) : list byte :=
  let n := Z.of_N (N_of_ascii c) in
  if n <? 128 then [byte_of_Z n]
  else [byte_of_Z (192 + n / 64); byte_of_Z (128 + n mod 64)].

Definition utf8 (s : string) : list byte :=
  flat_map utf8_unit (String.list_ascii_of_string s).

(** Modelled from the spec: the helper [generateHmacSha512] of utils/index is
    not among the sources.  On a message and a secret key, both strings, it
    computes the SHA-512 based HMAC of the message under the key and returns
    the digest as a hex string. *)
Definition keyed_hash (data key : string) : M string :=
  emit (HmacComputed key data);;
  mret (hex_encode (hmac_sha512 (utf8 key) (utf8 data))).

(** What the verifier needs of the helper it imports: on a non-empty message
    and a non-empty key it is the keyed hash above. *)
Definition computes_hmac (helper : string -> value -> M string) : Prop :=
  forall data key : string,
    data <> ""%string -> key <> ""%string ->
    helper data (VString key) = keyed_hash data key.

(** A helper on all values: Node's [createHmac] rejects a key that is
    neither a string nor a buffer. *)
Definition generateHmacSha512_model (data : string) (secretKey : value) : M string :=
  match secretKey with
  | VString key => keyed_hash data key
  | _ => throw (TypeError "ERR_INVALID_ARG_TYPE")
  end.

Definition unhex (c : ascii) : option Z :=
  let n := Z.of_N (N_of_ascii c) in
  if (48 <=? n) && (n <=? 57) then Some (n - 48)
  else if (65 <=? n) && (n <=? 70) then Some (n - 55)
  else if (97 <=? n) && (n <=? 102) then Some (n - 87)
  else None.

(** Node's hex decoder: bytes are produced pair by pair and decoding stops,
    without an error, at the first pair that is not two hex digits; an odd
    last character is dropped. *)
Fixpoint hex_decode (s : string) : list byte :=
  match s with
  | String c1 (String c2 rest) =>
      match unhex c1, unhex c2 with
      | Some a, Some b => byte_of_Z (16 * a + b) :: hex_decode rest
      | _, _ => []
      end
  | _ => []
  end.

Fixpoint bytes_eqb (a b : list byte) : bool :=
  match a, b with
  | [], [] => true
  | x :: a', y :: b' => Byte.eqb x y && bytes_eqb a' b'
  | _, _ => false
  end.

(** [crypto.timingSafeEqual]: buffers of different byte length are an error. *)
Definition timingSafeEqual (a b : list byte) : M bool :=
  if Nat.eqb (length a) (length b) then mret (bytes_eqb a b)
  else throw (RangeError "ERR_CRYPTO_TIMING_SAFE_EQUAL_LENGTH").

(** ** The response type and the example of the specification *)

(** [FonepayResponse] as the package documents it: ten string fields. *)
Record FonepayResponse : Type := {
  PRN : string; PID : string; PS : string; RC : string; UID : string;
  BC : string; INI : string; P_AMT : string; R_AMT : string; DV : string
}.

(** The object [props] has the nine signed fields of [r] as string values. *)
Definition signed_fields (props : gmap string value) (r : FonepayResponse) : Prop :=
  props !! "PRN" = Some (VString (PRN r)) /\ props !! "PID" = Some (VString (PID r))
  /\ props !! "PS" = Some (VString (PS r)) /\ props !! "RC" = Some (VString (RC r))
  /\ props !! "UID" = Some (VString (UID r)) /\ props !! "BC" = Some (VString (BC r))
  /\ props !! "INI" = Some (VString (INI r)) /\ props !! "P_AMT" = Some (VString (P_AMT r))
  /\ props !! "R_AMT" = Some (VString (R_AMT r)).

(** ... and the tenth, [DV], too. *)
Definition carries (props : gmap string value) (r : FonepayResponse) : Prop :=
  signed_fields props r /\ props !! "DV" = Some (VString (DV r)).

(** The canonical message in the words of the specification: the nine values
    in the order PRN, PID, PS, RC, UID, BC, INI, P_AMT, R_AMT with one comma
    between neighbours. *)
Definition canonical_message (r : FonepayResponse) : string :=
  PRN r +:+ "," +:+ PID r +:+ "," +:+ PS r +:+ "," +:+ RC r +:+ "," +:+ UID r
    +:+ "," +:+ BC r +:+ "," +:+ INI r +:+ "," +:+ P_AMT r +:+ "," +:+ R_AMT r.

(** A well-formed hex string: hex digits only, an even number of them. *)
Fixpoint well_formed_hex (s : string) : bool :=
  match s with
  | EmptyString => true
  | String c1 (String c2 rest) =>
      match unhex c1, unhex c2 with
      | Some _, Some _ => well_formed_hex rest
      | _, _ => false
      end
  | String _ EmptyString => false
  end.

(** The hex pairs at the head of a string, up to the first pair that is not
    two hex digits. *)
Fixpoint hex_prefix (s : string) : string :=
  match s with
  | String c1 (String c2 rest) =>
      match unhex c1, unhex c2 with
      | Some _, Some _ => String c1 (String c2 (hex_prefix rest))
      | _, _ => ""%string
      end
  | _ => ""%string
  end.

(** Lower-casing of the letters of the 8-bit range: A-Z, and the accented
    capitals 192-222 apart from the multiplication sign 215. *)
Definition lower_ascii (c : ascii) : ascii :=
  let n := N_of_ascii c in
  if ((65 <=? n) && (n <=? 90))%N then ascii_of_N (n + 32)
  else if ((192 <=? n) && (n <=? 222) && negb (n =? 215))%N then ascii_of_N (n + 32)
  else c.

Fixpoint lower (s : string) : string :=
  match s with
  | EmptyString => EmptyString
  | String c rest => String (lower_ascii c) (lower rest)
  end.

Definition is_hmac (ev : event) : bool :=
  match ev with
  | HmacComputed _ _ => true
  | _ => false
  end.

(** An instance of [Buffer.from] on arrays and objects for the examples,
    whose [DV] is a string or absent, so that it is never consulted there.
    Node itself builds bytes from an array or an array-like object. *)
Definition no_array_likes (_ : value) : outcome (list byte) :=
  Throw (TypeError "ERR_INVALID_ARG_TYPE").

(** A payload whose [RC] is an accessor throwing an error that has an
    accessor as [message], which throws in turn. *)
Definition accessor_payload : payload :=
  Exotic {[ "RC"%string := Getter (Unreadable (Error "message getter")) ]}.

(** A payload whose [RC] is an accessor throwing an ordinary error. *)
Definition throwing_payload : payload :=
  Exotic {[ "RC"%string := Getter (Error "RC getter") ]}.

(** An object field with an own [toString] property. *)
Definition unconvertible : value := VObject {[ "toString"%string := VString "x" ]}.

(** A helper that returns the empty string. *)
Definition empty_hash_helper (_ : string) (_ : value) : M string := mret ""%string.

Definition example_fields (dv : string) : FonepayResponse :=
  {| PRN := "ORDER1"; PID := "M001"; PS := "success"; RC := "successful";
     UID := "T123"; BC := "B01"; INI := "C"; P_AMT := "100.00"; R_AMT := "0.00";
     DV := dv |}.

Definition object_of (r : FonepayResponse) : gmap string value :=
  list_to_map
    [("PRN", VString (PRN r)); ("PID", VString (PID r)); ("PS", VString (PS r));
     ("RC", VString (RC r)); ("UID", VString (UID r)); ("BC", VString (BC r));
     ("INI", VString (INI r)); ("P_AMT", VString (P_AMT r));
     ("R_AMT", VString (R_AMT r)); ("DV", VString (DV r))]%string.

Definition failed_response : value :=
  VObject {[ "RC" := VString "failed" ]}.

Definition example_DV : string :=
  "a0cb792269655762c73bacd62abb7ca5e67456b45e78012124bc223a5977ef58f5f7e81ee7d6a4db41b5651114bb4215948e84ea924ec861a45c5fdd2c4a7d51".

(** No comma among the characters of a string. *)
Fixpoint comma_free (s : string) : bool :=
  match s with
  | EmptyString => true
  | String c rest => negb (Ascii.eqb c ",") && comma_free rest
  end.

(** The first eight signed values have no comma; the ninth ends the message
    and may have some. *)
Definition comma_free_fields (r : FonepayResponse) : Prop :=
  comma_free (PRN r) = true /\ comma_free (PID r) = true
  /\ comma_free (PS r) = true /\ comma_free (RC r) = true
  /\ comma_free (UID r) = true /\ comma_free (BC r) = true
  /\ comma_free (INI r) = true /\ comma_free (P_AMT r) = true.

Definition tampered_DV : string :=
  "b0cb792269655762c73bacd62abb7ca5e67456b45e78012124bc223a5977ef58f5f7e81ee7d6a4db41b5651114bb4215948e84ea924ec861a45c5fdd2c4a7d51".

Definition example_message : string :=
  "ORDER1,M001,success,successful,T123,B01,C,100.00,0.00".

(** ** The verifier *)

Section Verifier.

(** [RESPONSE_CODE.SUCCESSFUL] of types/index, the success sentinel. *)
Variable RESPONSE_CODE_SUCCESSFUL : string.

(** [generateHmacSha512] of utils/index, the keyed-hash helper. *)
Variable generateHmacSha512 : string -> value -> M string.

(** [Buffer.from] on an array or an object ignores the encoding and goes
    through Node's array-like conversion; which bytes, or which error,
    that yields is left open. *)
Variable Buffer_from_object : value -> outcome (list byte).

(** [Buffer.from(v, "hex")] *)
Definition Buffer_from (v : value) : M (list byte) :=
  match v with
  | VString s => mret (hex_decode s)
  | VArray _ | VObject _ => lift (Buffer_from_object v)
  | VUndefined | VNull | VBool _ => throw (TypeError "ERR_INVALID_ARG_TYPE")
  end.

Definition order : list string :=
  ["PRN"; "PID"; "PS"; "RC"; "UID"; "BC"; "INI"; "P_AMT"; "R_AMT"]%string.

(** The [catch] block: the message is read off the error, logged, and false
    is returned. *)
Definition verifyResponse_catch (error : exn) : M bool :=
  _ ← lift (errorMessage error);
  emit (ConsoleError error);;
  mret false.

(** The statements of the [try] block. *)
Definition verifyResponse_try (response : payload) (secretKey : value) : M bool :=
  (if negb (truthy_payload response) || negb (truthy secretKey)
   then throw (Error "Response and secret key are required")
   else mret tt);;
  rc ← read response "RC";
  if negb (strict_eq_string rc RESPONSE_CODE_SUCCESSFUL) then
    rc ← read response "RC";
    _ ← lift (ToString rc);
    emit (ConsoleInfo rc);;
    mret false
  else
    missingFields ←
      filterM (fun field => b ← has field response; mret (negb b)) order;
    (if (0 <? length missingFields)%nat
     then throw (Error ("Missing required fields in response: "
                          +:+ String.concat ", " missingFields))
     else mret tt);;
    values ← mapM (read response) order;
    concatenatedValues ← lift (Array_join "," values);
    calculatedHash ← generateHmacSha512 concatenatedValues secretKey;
    (if negb (truthy (VString calculatedHash))
     then throw (Error "Failed to generate hash for response verification")
     else mret tt);;
    calculatedDV ← Buffer_from (VString calculatedHash);
    DV ← read response "DV";
    fonepayDV ← Buffer_from DV;
    timingSafeEqual calculatedDV fonepayDV.

(** [verifyResponse] on any payload. *)
Definition verifyResponse_payload (response : payload) (secretKey : value) : M bool :=
  try_catch (verifyResponse_try response secretKey) verifyResponse_catch.

(** [verifyResponse] on a data value. *)
Definition verifyResponse (response secretKey : value) : M bool :=
  verifyResponse_payload (Plain response) secretKey.

(** *** The source's steps on an object, as pure functions *)

Definition missing (props : gmap string value) (l : list string) : list string :=
  List.filter (fun field => match props !! field with Some _ => false | None => true end) l.

Definition field_values (props : gmap string value) (l : list string) : list value :=
  map (fun key => default VUndefined (props !! key)) l.

(** [order.map((key) => response[key]).join(",")], which fails when a value
    does not convert to a string. *)
Definition joined (props : gmap string value) : outcome string :=
  Array_join "," (field_values props order).

(** The message of the join when every value converts, and the empty
    string, which a join of nine values never is, when one does not. *)
Definition concatenatedValues (props : gmap string value) : string :=
  match joined props with
  | Return message => message
  | Throw _ => ""%string
  end.

(** The value the status gate looks at, [response.RC]. *)
Definition RC_of (response : value) : value :=
  match response with
  | VObject props => default VUndefined (props !! "RC")
  | _ => VUndefined
  end.

(** All of [order] are keys of the object. *)
Definition complete (props : gmap string value) : Prop :=
  Forall (fun field => is_Some (props !! field)) order.

(** Every value of [order] converts to a string: the join succeeds. *)
Definition convertible (props : gmap string value) : Prop :=
  exists message, joined props = Return message.

Lemma filterM_missing props l :
  filterM (fun field => b ← has field (Plain (VObject props)); mret (negb b)) l
  = mret (missing props l).
Proof.
  induction l as [|f l IH]; [reflexivity|].
  cbn [filterM missing List.filter]. rewrite IH.
  cbn [has has_property]. destruct (props !! f); reflexivity.
Qed.

Lemma mapM_get props l :
  mapM (read (Plain (VObject props))) l = mret (field_values props l).
Proof.
  induction l as [|f l IH]; [reflexivity|].
  cbn [mapM field_values map]. rewrite IH. reflexivity.
Qed.

Lemma missing_nil props l :
  Forall (fun field => is_Some (props !! field)) l -> missing props l = [].
Proof.
  induction 1 as [|f l [v Hv] _ IH]; [reflexivity|].
  cbn [missing List.filter]. rewrite Hv. exact IH.
Qed.

Lemma missing_cons props l field :
  In field l -> props !! field = None -> exists f rest, missing props l = f :: rest.
Proof.
  induction l as [|g l IH]; intros Hin Hnone; [destruct Hin|].
  cbn [missing List.filter].
  destruct (props !! g) eqn:Hg.
  - destruct Hin as [->|Hin]; [congruence|]. apply IH; assumption.
  - eauto.
Qed.

(** *** Bytes and hex *)

Lemma hex_decode_pair b rest :
  hex_decode (String (hex_digit (Z_of_byte b / 16))
                (String (hex_digit (Z_of_byte b mod 16)) rest))
  = b :: hex_decode rest.
Proof. destruct b; reflexivity. Qed.

Lemma hex_encode_cons b bs :
  hex_encode (b :: bs)
  = String (hex_digit (Z_of_byte b / 16))
      (String (hex_digit (Z_of_byte b mod 16)) (hex_encode bs)).
Proof. reflexivity. Qed.

Lemma hex_decode_encode bs : hex_decode (hex_encode bs) = bs.
Proof.
  induction bs as [|b bs IH]; [reflexivity|].
  rewrite hex_encode_cons, hex_decode_pair, IH. reflexivity.
Qed.

Lemma bytes_eqb_eq a b : bytes_eqb a b = true <-> a = b.
Proof.
  revert b. induction a as [|x a IH]; intros [|y b]; cbn [bytes_eqb];
    try (split; [discriminate|discriminate]); [tauto|].
  rewrite andb_true_iff, IH. split.
  - intros [Hxy ->]. apply Byte.byte_dec_bl in Hxy. congruence.
  - intros [= -> ->]. split; [apply Byte.byte_dec_lb|]; reflexivity.
Qed.

Lemma digest_length msg : length (SHA512.digest msg) = 64%nat.
Proof.
  unfold SHA512.digest. cbv zeta. rewrite !length_app.
  unfold SHA512.bytes_of_word. rewrite !length_map. reflexivity.
Qed.

Lemma hmac_sha512_length key msg : length (hmac_sha512 key msg) = 64%nat.
Proof. unfold hmac_sha512. apply digest_length. Qed.

#[local] Opaque hmac_sha512.

Lemma hex_encode_truthy bs :
  length bs = 64%nat -> truthy (VString (hex_encode bs)) = true.
Proof. destruct bs as [|b bs]; [discriminate|]. reflexivity. Qed.

(** *** Laws of the monad *)

Lemma bind_ret {A B} (a : A) (f : A -> M B) : (mret a ≫= f) = f a.
Proof. unfold mbind, mret, M_bind, M_ret. destruct (f a). reflexivity. Qed.

Lemma bind_emit {B} (ev : event) (f : unit -> M B) :
  (emit ev ≫= f) = (ev :: trace (f tt), result (f tt)).
Proof. unfold mbind, emit, M_bind, trace, result. destruct (f tt). reflexivity. Qed.

Lemma bind_emit_ext {B} (ev : event) (f g : unit -> M B) :
  f tt = g tt -> (emit ev ≫= f) = (emit ev ≫= g).
Proof. intros H. rewrite !bind_emit, H. reflexivity. Qed.

Lemma bind_assoc {A B C} (m : M A) (f : A -> M B) (g : B -> M C) :
  ((m ≫= f) ≫= g) = (m ≫= fun a => f a ≫= g).
Proof.
  destruct m as [tr [a|e]]; [|reflexivity].
  unfold mbind, M_bind. destruct (f a) as [tr' [b|e']]; [|reflexivity].
  destruct (g b) as [tr'' r]. rewrite app_assoc. reflexivity.
Qed.

Lemma bind_lift_return {A B} (a : A) (f : A -> M B) : (lift (Return a) ≫= f) = f a.
Proof. apply bind_ret. Qed.

Lemma bind_ext {A B} (m : M A) (f g : A -> M B) :
  (forall a, f a = g a) -> (m ≫= f) = (m ≫= g).
Proof.
  intros H. destruct m as [tr [a|e]]; [|reflexivity].
  unfold mbind, M_bind. rewrite H. reflexivity.
Qed.

Lemma result_bind {A B} (tr : list event) (a : A) (f : A -> M B) :
  result ((tr, Return a) ≫= f) = result (f a).
Proof. unfold mbind, M_bind, result. destruct (f a). reflexivity. Qed.

(** *** Conversions and the [catch] block *)

Lemma value_array_ind (P : value -> Prop) :
  P VUndefined -> P VNull -> (forall b, P (VBool b)) -> (forall s, P (VString s)) ->
  (forall elems, Forall P elems -> P (VArray elems)) ->
  (forall props, P (VObject props)) ->
  forall v, P v.
Proof.
  intros Hu Hn Hb Hs Ha Ho. fix IH 1.
  intros [| |b|s|elems|props];
    [exact Hu|exact Hn|apply Hb|apply Hs| |apply Ho].
  apply Ha. induction elems as [|x l IHl]; constructor; [apply IH|exact IHl].
Qed.

Lemma join_outcomes_cons sep o o' l :
  join_outcomes sep (o :: o' :: l)
  = match o with
    | Throw e => Throw e
    | Return s =>
        match join_outcomes sep (o' :: l) with
        | Throw e => Throw e
        | Return t => Return (s +:+ sep +:+ t)%string
        end
    end.
Proof. reflexivity. Qed.

Lemma join_outcomes_throw sep l e :
  join_outcomes sep l = Throw e -> In (Throw e) l.
Proof.
  induction l as [|o l IH]; [discriminate|].
  destruct l as [|o' l'].
  - cbn. auto.
  - rewrite join_outcomes_cons.
    destruct o as [s|e1]; [|intros [= ->]; left; reflexivity].
    destruct (join_outcomes sep (o' :: l')) as [t|e2]; [discriminate|].
    intros [= ->]. right. apply IH. reflexivity.
Qed.

Lemma join_outcomes_return sep (l : list string) :
  join_outcomes sep (map Return l) = Return (String.concat sep l).
Proof.
  induction l as [|x l IH]; [reflexivity|].
  destruct l as [|y l]; [reflexivity|].
  change (map Return (x :: y :: l)) with (Return x :: Return y :: map Return l).
  rewrite join_outcomes_cons.
  change (Return y :: map Return l) with (map Return (y :: l)).
  rewrite IH. reflexivity.
Qed.

(** A conversion fails with one error only. *)
Lemma ToString_throw v e :
  ToString v = Throw e -> e = TypeError "Cannot convert object to primitive value".
Proof.
  revert e. induction v as [| |b|s|elems IH|props] using value_array_ind;
    intros e; cbn [ToString]; try discriminate.
  - destruct b; discriminate.
  - intros H. apply join_outcomes_throw, in_map_iff in H as (x & Hx & Hin).
    rewrite List.Forall_forall in IH. specialize (IH x Hin e).
    destruct x; try discriminate; apply IH; exact Hx.
  - destruct (props !! "toString"%string); [intros [= <-]; reflexivity|discriminate].
Qed.

Lemma Array_join_throw sep elems e :
  Array_join sep elems = Throw e ->
  e = TypeError "Cannot convert object to primitive value".
Proof.
  intros H. apply join_outcomes_throw, in_map_iff in H as (x & Hx & _).
  destruct x; try discriminate; apply (ToString_throw _ _ Hx).
Qed.

Lemma readable_Error message : readable (Error message).
Proof. eexists. reflexivity. Qed.

Lemma readable_TypeError origin : readable (TypeError origin).
Proof. eexists. reflexivity. Qed.

Lemma readable_RangeError origin : readable (RangeError origin).
Proof. eexists. reflexivity. Qed.

Lemma result_catch_bind {A B} tr (a : A) (f : A -> M B) handler :
  result (try_catch ((tr, Return a) ≫= f) handler) = result (try_catch (f a) handler).
Proof.
  unfold mbind, M_bind, try_catch, result. destruct (f a) as [tr' [b|e]]; [reflexivity|].
  destruct (handler e). reflexivity.
Qed.

Lemma catch_return tr (b : bool) :
  try_catch (tr, Return b) verifyResponse_catch = (tr, Return b).
Proof. reflexivity. Qed.

Lemma catch_readable tr e :
  readable e ->
  try_catch (tr, Throw e) verifyResponse_catch = (tr ++ [ConsoleError e], Return false).
Proof. intros [message H]. unfold try_catch, verifyResponse_catch. rewrite H. reflexivity. Qed.

Lemma caught_not_true tr e :
  result (try_catch (tr, Throw e) verifyResponse_catch) <> Return true.
Proof.
  unfold try_catch, verifyResponse_catch. destruct (errorMessage e); discriminate.
Qed.

Lemma catch_unreadable tr inner :
  try_catch (tr, Throw (Unreadable inner)) verifyResponse_catch = (tr, Throw inner).
Proof. unfold try_catch, verifyResponse_catch. cbn. rewrite app_nil_r. reflexivity. Qed.

(** *** The run of the [try] block, case by case *)

Lemma truthy_string key : key <> ""%string -> truthy (VString key) = true.
Proof.
  intros Hkey. cbn [truthy]. destruct (String.eqb_spec key ""); [contradiction|reflexivity].
Qed.

Lemma try_falsy r k :
  truthy_payload r = false \/ truthy k = false ->
  verifyResponse_try r k = throw (Error "Response and secret key are required").
Proof.
  intros H. unfold verifyResponse_try.
  replace (negb (truthy_payload r) || negb (truthy k)) with true; [reflexivity|].
  destruct H as [-> | ->]; [reflexivity|]. symmetry. apply orb_true_r.
Qed.

Lemma falsy_run_payload r k :
  truthy_payload r = false \/ truthy k = false ->
  verifyResponse_payload r k
  = ([ConsoleError (Error "Response and secret key are required")], Return false).
Proof.
  intros H. unfold verifyResponse_payload. rewrite try_falsy by assumption. reflexivity.
Qed.

Lemma falsy_run r k :
  truthy r = false \/ truthy k = false ->
  verifyResponse r k
  = ([ConsoleError (Error "Response and secret key are required")], Return false).
Proof. intros H. apply falsy_run_payload. exact H. Qed.

Lemma try_not_successful r k :
  truthy r = true -> truthy k = true ->
  RC_of r <> VString RESPONSE_CODE_SUCCESSFUL ->
  verifyResponse_try (Plain r) k
  = (_ ← lift (ToString (RC_of r)); emit (ConsoleInfo (RC_of r));; mret false).
Proof.
  intros Hr Hk Hrc. unfold verifyResponse_try. cbn [truthy_payload read].
  rewrite Hr, Hk. cbn [negb orb]. rewrite bind_ret.
  assert (Hget : get r "RC" = mret (RC_of r)) by (destruct r; try discriminate; reflexivity).
  rewrite Hget, bind_ret.
  assert (Hne : strict_eq_string (RC_of r) RESPONSE_CODE_SUCCESSFUL = false).
  { destruct (RC_of r) as [| |b|s|l|m]; try reflexivity. cbn [strict_eq_string].
    destruct (String.eqb_spec s RESPONSE_CODE_SUCCESSFUL); [congruence|reflexivity]. }
  rewrite Hne. cbn [negb]. rewrite bind_ret. reflexivity.
Qed.

Lemma get_object props key :
  get (VObject props) key = mret (default VUndefined (props !! key)).
Proof. reflexivity. Qed.

Lemma Buffer_from_string s : Buffer_from (VString s) = mret (hex_decode s).
Proof. reflexivity. Qed.

Lemma try_past_gate props k :
  truthy k = true ->
  props !! "RC" = Some (VString RESPONSE_CODE_SUCCESSFUL) ->
  verifyResponse_try (Plain (VObject props)) k =
    ((if (0 <? length (missing props order))%nat
      then throw (Error ("Missing required fields in response: "
                           +:+ String.concat ", " (missing props order)))
      else mret tt);;
     concatenatedValues ← lift (joined props);
     calculatedHash ← generateHmacSha512 concatenatedValues k;
     (if negb (truthy (VString calculatedHash))
      then throw (Error "Failed to generate hash for response verification")
      else mret tt);;
     calculatedDV ← Buffer_from (VString calculatedHash);
     DV ← get (VObject props) "DV";
     fonepayDV ← Buffer_from DV;
     timingSafeEqual calculatedDV fonepayDV).
Proof.
  intros Hk Hrc. unfold verifyResponse_try. cbn [truthy_payload read].
  rewrite Hk. cbn [truthy negb orb].
  rewrite bind_ret, (get_object props "RC"), Hrc. cbn [default from_option id].
  rewrite bind_ret. cbn [strict_eq_string]. rewrite String.eqb_refl. cbn [negb].
  rewrite filterM_missing, bind_ret, mapM_get, bind_ret. reflexivity.
Qed.

Lemma try_missing props k field :
  truthy k = true ->
  props !! "RC" = Some (VString RESPONSE_CODE_SUCCESSFUL) ->
  In field order -> props !! field = None ->
  verifyResponse_try (Plain (VObject props)) k =
    throw (Error ("Missing required fields in response: "
                    +:+ String.concat ", " (missing props order))).
Proof.
  intros Hk Hrc Hin Hnone. rewrite try_past_gate by assumption.
  destruct (missing_cons props order field Hin Hnone) as (f & rest & ->).
  reflexivity.
Qed.

(** With the nine fields present the run reaches the join. *)
Lemma try_complete props k :
  truthy k = true ->
  props !! "RC" = Some (VString RESPONSE_CODE_SUCCESSFUL) ->
  complete props ->
  verifyResponse_try (Plain (VObject props)) k =
    (concatenatedValues ← lift (joined props);
     calculatedHash ← generateHmacSha512 concatenatedValues k;
     (if negb (truthy (VString calculatedHash))
      then throw (Error "Failed to generate hash for response verification")
      else mret tt);;
     calculatedDV ← Buffer_from (VString calculatedHash);
     DV ← get (VObject props) "DV";
     fonepayDV ← Buffer_from DV;
     timingSafeEqual calculatedDV fonepayDV).
Proof.
  intros Hk Hrc Hall. rewrite try_past_gate by assumption.
  rewrite (missing_nil props order Hall). cbn [length Nat.ltb Nat.leb].
  rewrite bind_ret. reflexivity.
Qed.

Lemma convertible_joined props :
  convertible props -> joined props = Return (concatenatedValues props).
Proof. intros [message H]. unfold concatenatedValues. rewrite H. reflexivity. Qed.

(** ... and, every value converting, the helper. *)
Lemma try_convertible props k :
  truthy k = true ->
  props !! "RC" = Some (VString RESPONSE_CODE_SUCCESSFUL) ->
  complete props -> convertible props ->
  verifyResponse_try (Plain (VObject props)) k =
    (calculatedHash ← generateHmacSha512 (concatenatedValues props) k;
     (if negb (truthy (VString calculatedHash))
      then throw (Error "Failed to generate hash for response verification")
      else mret tt);;
     calculatedDV ← Buffer_from (VString calculatedHash);
     DV ← get (VObject props) "DV";
     fonepayDV ← Buffer_from DV;
     timingSafeEqual calculatedDV fonepayDV).
Proof.
  intros Hk Hrc Hall Hconv. rewrite try_complete by assumption.
  rewrite (convertible_joined props Hconv), bind_lift_return. reflexivity.
Qed.

(** A value that does not convert ends the run before the helper. *)
Lemma unconvertible_run props k :
  truthy k = true ->
  props !! "RC" = Some (VString RESPONSE_CODE_SUCCESSFUL) ->
  complete props -> ~ convertible props ->
  verifyResponse (VObject props) k
  = ([ConsoleError (TypeError "Cannot convert object to primitive value")],
     Return false).
Proof.
  intros Hk Hrc Hall Hconv. unfold verifyResponse, verifyResponse_payload.
  rewrite try_complete by assumption.
  destruct (joined props) as [message|e] eqn:Hj; [exfalso; apply Hconv; eexists; eauto|].
  apply Array_join_throw in Hj as ->. reflexivity.
Qed.

Lemma convertible_dec props : convertible props \/ ~ convertible props.
Proof.
  unfold convertible. destruct (joined props) as [message|e]; [left; eauto|].
  right. intros [message H]. discriminate.
Qed.

Lemma concatenatedValues_nonempty props :
  convertible props -> concatenatedValues props <> ""%string.
Proof.
  intros Hconv. pose proof (convertible_joined props Hconv) as Hj.
  revert Hj. generalize (concatenatedValues props). intros message.
  unfold joined, Array_join, field_values, order. cbn [map join_outcomes].
  destruct (join_element _) as [s|e]; [|discriminate].
  destruct (match join_element _ with Return _ => _ | Throw e => Throw e end) as [t|e];
    [|discriminate].
  intros [= <-]. destruct s; discriminate.
Qed.

(** With a helper that computes the keyed hash and a usable key the run is
    the hash followed by the comparison. *)
Lemma try_signed props key :
  computes_hmac generateHmacSha512 ->
  key <> ""%string ->
  props !! "RC" = Some (VString RESPONSE_CODE_SUCCESSFUL) ->
  complete props -> convertible props ->
  verifyResponse_try (Plain (VObject props)) (VString key) =
    (emit (HmacComputed key (concatenatedValues props));;
     fonepayDV ← Buffer_from (default VUndefined (props !! "DV"));
     timingSafeEqual
       (hmac_sha512 (utf8 key) (utf8 (concatenatedValues props))) fonepayDV).
Proof.
  intros Hhelper Hkey Hrc Hall Hconv.
  rewrite try_convertible by (try apply truthy_string; assumption).
  rewrite Hhelper by (apply concatenatedValues_nonempty || assumption; assumption).
  unfold keyed_hash. rewrite bind_assoc. apply bind_emit_ext. cbv beta.
  rewrite bind_ret, hex_encode_truthy by apply hmac_sha512_length.
  cbn [negb]. rewrite bind_ret, Buffer_from_string.
  rewrite bind_ret, hex_decode_encode, get_object, bind_ret. reflexivity.
Qed.

Lemma Buffer_from_pure v : Buffer_from v = ([], result (Buffer_from v)).
Proof. destruct v; reflexivity. Qed.

Lemma signed_complete props r : signed_fields props r -> complete props.
Proof.
  intros (H1 & H2 & H3 & H4 & H5 & H6 & H7 & H8 & H9).
  unfold complete, order. repeat constructor; eexists; eassumption.
Qed.

Lemma signed_joined props r :
  signed_fields props r -> joined props = Return (canonical_message r).
Proof.
  intros (H1 & H2 & H3 & H4 & H5 & H6 & H7 & H8 & H9).
  unfold joined, Array_join, field_values, order. cbn [map].
  rewrite H1, H2, H3, H4, H5, H6, H7, H8, H9. reflexivity.
Qed.

Lemma signed_convertible props r : signed_fields props r -> convertible props.
Proof. intros H. eexists. apply (signed_joined _ _ H). Qed.

Lemma signed_message props r :
  signed_fields props r -> concatenatedValues props = canonical_message r.
Proof.
  intros H. unfold concatenatedValues. rewrite (signed_joined _ _ H). reflexivity.
Qed.

Lemma rc_cases r :
  (exists props, r = VObject props
                 /\ props !! "RC" = Some (VString RESPONSE_CODE_SUCCESSFUL))
  \/ RC_of r <> VString RESPONSE_CODE_SUCCESSFUL.
Proof.
  destruct r as [| |b|s|l|props]; try (right; discriminate).
  cbn [RC_of]. destruct (props !! "RC") as [[| |b|s|l|m]|] eqn:Hrc;
    try (right; discriminate).
  destruct (String.eqb_spec s RESPONSE_CODE_SUCCESSFUL) as [->|Hne].
  - left. eauto.
  - right. cbn [default from_option id]. congruence.
Qed.

(** The outcome of a run whose status gate does not pass: the informational
    entry, or the error of a falsy argument, or the error of an [RC] that
    does not convert to a string. *)
Lemma gate_run r k :
  RC_of r <> VString RESPONSE_CODE_SUCCESSFUL ->
  verifyResponse r k = ([ConsoleInfo (RC_of r)], Return false)
  \/ verifyResponse r k
     = ([ConsoleError (Error "Response and secret key are required")], Return false)
  \/ verifyResponse r k
     = ([ConsoleError (TypeError "Cannot convert object to primitive value")],
        Return false).
Proof.
  intros Hrc.
  destruct (truthy r) eqn:Hr; [destruct (truthy k) eqn:Hk|].
  - unfold verifyResponse, verifyResponse_payload.
    rewrite try_not_successful by assumption.
    destruct (ToString (RC_of r)) as [text|e] eqn:Hs.
    + left. reflexivity.
    + right. right. apply ToString_throw in Hs as ->. reflexivity.
  - right. left. apply falsy_run. right. assumption.
  - right. left. apply falsy_run. left. assumption.
Qed.

Lemma gate_result r k :
  RC_of r <> VString RESPONSE_CODE_SUCCESSFUL ->
  result (verifyResponse r k) = Return false.
Proof. intros H. destruct (gate_run r k H) as [-> | [-> | ->]]; reflexivity. Qed.

(** The outcome of a run that reaches the comparison. *)
Lemma signed_run props key :
  computes_hmac generateHmacSha512 ->
  key <> ""%string ->
  props !! "RC" = Some (VString RESPONSE_CODE_SUCCESSFUL) ->
  complete props -> convertible props ->
  let digest := hmac_sha512 (utf8 key) (utf8 (concatenatedValues props)) in
  let computed := HmacComputed key (concatenatedValues props) in
  verifyResponse (VObject props) (VString key) =
    match result (Buffer_from (default VUndefined (props !! "DV"))) with
    | Return fonepayDV =>
        if Nat.eqb (length digest) (length fonepayDV)
        then ([computed], Return (bytes_eqb digest fonepayDV))
        else ([computed;
               ConsoleError (RangeError "ERR_CRYPTO_TIMING_SAFE_EQUAL_LENGTH")],
              Return false)
    | Throw e => try_catch ([computed], Throw e) verifyResponse_catch
    end.
Proof.
  intros Hhelper Hkey Hrc Hall Hconv digest computed.
  unfold verifyResponse, verifyResponse_payload.
  rewrite try_signed by assumption. fold digest. fold computed.
  rewrite bind_emit.
  pose proof (Buffer_from_pure (default VUndefined (props !! "DV"))) as Hpure.
  destruct (Buffer_from (default VUndefined (props !! "DV"))) as [tr [dv|e]];
    injection Hpure as ->; [|reflexivity].
  unfold timingSafeEqual, result, trace, try_catch. cbn [mbind M_bind snd fst].
  destruct (Nat.eqb (length digest) (length dv)); reflexivity.
Qed.

(** A run on an object depends on the object through [RC], the missing
    fields, the join and the decoded [DV] only, whatever the helper. *)
Lemma object_run_ext props1 props2 k :
  props1 !! "RC" = props2 !! "RC" ->
  missing props1 order = missing props2 order ->
  joined props1 = joined props2 ->
  Buffer_from (default VUndefined (props1 !! "DV"))
  = Buffer_from (default VUndefined (props2 !! "DV")) ->
  verifyResponse (VObject props1) k = verifyResponse (VObject props2) k.
Proof.
  intros Hrc Hmiss Hmsg Hdv.
  destruct (truthy k) eqn:Hk; [|rewrite !falsy_run by (right; assumption); reflexivity].
  destruct (rc_cases (VObject props1)) as [(p & [= <-] & Hrc1)|Hrc1].
  - assert (Hrc2 : props2 !! "RC" = Some (VString RESPONSE_CODE_SUCCESSFUL))
      by congruence.
    unfold verifyResponse, verifyResponse_payload. rewrite !try_past_gate by assumption.
    rewrite <- Hmiss, <- Hmsg. f_equal.
    apply bind_ext; intros _. apply bind_ext; intros concatenatedValues.
    apply bind_ext; intros calculatedHash.
    apply bind_ext; intros _. apply bind_ext; intros calculatedDV.
    rewrite !get_object, !bind_ret, Hdv. reflexivity.
  - assert (Hrc2 : RC_of (VObject props2) <> VString RESPONSE_CODE_SUCCESSFUL)
      by (cbn [RC_of] in *; congruence).
    unfold verifyResponse, verifyResponse_payload.
    rewrite !try_not_successful by (assumption || reflexivity).
    cbn [RC_of]. rewrite Hrc. reflexivity.
Qed.

Lemma unhex_lower c : unhex (lower_ascii c) = unhex c.
Proof. destruct c as [[] [] [] [] [] [] [] []]; reflexivity. Qed.

Lemma hex_decode_lower s : hex_decode (lower s) = hex_decode s.
Proof.
  enough (H : hex_decode (lower s) = hex_decode s
              /\ forall c, hex_decode (lower (String c s)) = hex_decode (String c s))
    by apply H.
  induction s as [|a s [IH1 IH2]]; [split; reflexivity|].
  split; [apply IH2|]. intros c. cbn [lower hex_decode].
  rewrite !unhex_lower, IH1. reflexivity.
Qed.

Lemma malformed_truncated s :
  well_formed_hex s = false ->
  (2 * length (hex_decode s) < String.length s)%nat.
Proof.
  enough (H : (well_formed_hex s = false ->
               (2 * length (hex_decode s) < String.length s)%nat)
              /\ forall c, well_formed_hex (String c s) = false ->
                 (2 * length (hex_decode (String c s)) < String.length (String c s))%nat)
    by apply H.
  induction s as [|a s [IH1 IH2]].
  - split; [discriminate|]. intros c _. cbn. lia.
  - split; [apply IH2|]. intros c. cbn [well_formed_hex hex_decode String.length].
    destruct (unhex c), (unhex a); cbn [length]; try lia.
    intros H. apply IH1 in H. lia.
Qed.

Lemma bytes_eqb_length a b : bytes_eqb a b = true -> length a = length b.
Proof. intros H. apply bytes_eqb_eq in H. congruence. Qed.

(** The result for a complete object that passes the status gate and has a
    string as [DV]: the outcome of comparing digest and decoded [DV]. *)
Lemma complete_result props dv key :
  computes_hmac generateHmacSha512 ->
  key <> ""%string ->
  props !! "RC" = Some (VString RESPONSE_CODE_SUCCESSFUL) -> complete props ->
  convertible props ->
  props !! "DV" = Some (VString dv) ->
  result (verifyResponse (VObject props) (VString key))
  = Return (bytes_eqb (hmac_sha512 (utf8 key) (utf8 (concatenatedValues props)))
                      (hex_decode dv)).
Proof.
  intros Hhelper Hkey Hrc Hall Hconv Hdv.
  rewrite (signed_run props key Hhelper Hkey Hrc Hall Hconv), Hdv.
  cbn [default from_option id].
  rewrite Buffer_from_string. cbn [result mret M_ret snd].
  remember (hmac_sha512 (utf8 key) (utf8 (concatenatedValues props))) as digest.
  remember (hex_decode dv) as fonepayDV.
  destruct (Nat.eqb_spec (length digest) (length fonepayDV)) as [Hlen|Hlen];
    [reflexivity|].
  destruct (bytes_eqb digest fonepayDV) eqn:Heqb; [|reflexivity].
  apply bytes_eqb_length in Heqb. contradiction.
Qed.

Lemma carried_result props r key :
  computes_hmac generateHmacSha512 ->
  carries props r -> RC r = RESPONSE_CODE_SUCCESSFUL -> key <> ""%string ->
  result (verifyResponse (VObject props) (VString key))
  = Return (bytes_eqb (hmac_sha512 (utf8 key) (utf8 (canonical_message r)))
                      (hex_decode (DV r))).
Proof.
  intros Hhelper [Hsigned Hdv] Heq Hkey.
  pose proof Hsigned as (_ & _ & _ & Hrc & _). rewrite Heq in Hrc.
  rewrite <- (signed_message _ _ Hsigned).
  apply complete_result; try assumption.
  - eapply signed_complete, Hsigned.
  - eapply signed_convertible, Hsigned.
Qed.

(** *** The prefix kept by the hex decoder *)

Lemma hex_prefix_spec s :
  (exists rest, s = (hex_prefix s +:+ rest)%string)
  /\ well_formed_hex (hex_prefix s) = true
  /\ hex_decode (hex_prefix s) = hex_decode s
  /\ String.length (hex_prefix s) = (2 * length (hex_decode s))%nat.
Proof.
  enough (H : ((exists rest, s = (hex_prefix s +:+ rest)%string)
               /\ well_formed_hex (hex_prefix s) = true
               /\ hex_decode (hex_prefix s) = hex_decode s
               /\ String.length (hex_prefix s) = (2 * length (hex_decode s))%nat)
              /\ forall c,
                 (exists rest, String c s = (hex_prefix (String c s) +:+ rest)%string)
                 /\ well_formed_hex (hex_prefix (String c s)) = true
                 /\ hex_decode (hex_prefix (String c s)) = hex_decode (String c s)
                 /\ String.length (hex_prefix (String c s))
                    = (2 * length (hex_decode (String c s)))%nat)
    by apply H.
  induction s as [|a s [IH1 IH2]].
  - split; [|intros c]; (split; [eexists; reflexivity|]);
      (split; [|split]); reflexivity.
  - split; [apply IH2|]. intros c. cbn [hex_prefix hex_decode].
    destruct (unhex c) as [x|] eqn:Hc, (unhex a) as [y|] eqn:Ha;
      try (split; [eexists; reflexivity|]; (split; [|split]); reflexivity).
    destruct IH1 as ([rest Hrest] & Hwf & Hdec & Hlen).
    split.
    { exists rest.
      change (String c (String a s)
              = String c (String a (hex_prefix s +:+ rest)%string)).
      rewrite <- Hrest. reflexivity. }
    cbn [well_formed_hex hex_decode String.length length].
    rewrite Hc, Ha. split; [exact Hwf|]. split; [congruence|]. lia.
Qed.

Lemma hex_prefix_longest p :
  forall s t, s = (p +:+ t)%string -> well_formed_hex p = true ->
              (String.length p <= String.length (hex_prefix s))%nat.
Proof.
  enough (H : (forall s t, s = (p +:+ t)%string -> well_formed_hex p = true ->
                 (String.length p <= String.length (hex_prefix s))%nat)
              /\ forall c s t, s = (String c p +:+ t)%string ->
                 well_formed_hex (String c p) = true ->
                 (String.length (String c p) <= String.length (hex_prefix s))%nat)
    by apply H.
  induction p as [|a p [IH1 IH2]].
  - split; [intros s t _ _; cbn; lia|]. intros c s t _. discriminate.
  - split; [apply IH2|]. intros c s t -> Hwf.
    cbn [well_formed_hex] in Hwf.
    change ((String c (String a p) +:+ t)%string)
      with (String c (String a (p +:+ t)%string)).
    cbn [hex_prefix]. destruct (unhex c), (unhex a); try discriminate.
    cbn [String.length]. specialize (IH1 (p +:+ t)%string t eq_refl Hwf). lia.
Qed.

Lemma hex_prefix_proper s rest :
  well_formed_hex s = false -> s = (hex_prefix s +:+ rest)%string -> rest <> ""%string.
Proof.
  intros Hbad Hs ->. destruct (hex_prefix_spec s) as (_ & Hwf & _).
  assert (Heq : (hex_prefix s +:+ "")%string = hex_prefix s).
  { generalize (hex_prefix s). intros u. induction u as [|c u IH]; [reflexivity|].
    change ((String c u +:+ "")%string) with (String c (u +:+ "")%string).
    rewrite IH. reflexivity. }
  rewrite Heq in Hs. rewrite <- Hs in Hwf. congruence.
Qed.

Lemma joined_return props message :
  joined props = Return message ->
  convertible props /\ concatenatedValues props = message.
Proof.
  intros H. split; [eexists; exact H|]. unfold concatenatedValues. rewrite H. reflexivity.
Qed.

Lemma joined_throw props e :
  joined props = Throw e ->
  ~ convertible props /\ e = TypeError "Cannot convert object to primitive value".
Proof.
  intros H. split; [intros [message Hm]; congruence|].
  apply (Array_join_throw _ _ _ H).
Qed.

(** The length error of the comparison. *)
Lemma length_mismatch_run props key fonepayDV :
  computes_hmac generateHmacSha512 -> key <> ""%string ->
  props !! "RC" = Some (VString RESPONSE_CODE_SUCCESSFUL) -> complete props ->
  convertible props ->
  result (Buffer_from (default VUndefined (props !! "DV"))) = Return fonepayDV ->
  length fonepayDV <> 64%nat ->
  verifyResponse (VObject props) (VString key)
  = ([HmacComputed key (concatenatedValues props);
      ConsoleError (RangeError "ERR_CRYPTO_TIMING_SAFE_EQUAL_LENGTH")],
     Return false).
Proof.
  intros Hhelper Hkey Hrc Hall Hconv Hdv Hlen.
  rewrite signed_run by assumption. rewrite Hdv, hmac_sha512_length.
  destruct (Nat.eqb_spec 64 (length fonepayDV)); [congruence|reflexivity].
Qed.

(** Without a [DV] the run fails, at the latest at the decoding. *)
Lemma absent_DV_result props k :
  (forall data key, throws_readable (generateHmacSha512 data key)) ->
  truthy k = true ->
  props !! "RC" = Some (VString RESPONSE_CODE_SUCCESSFUL) -> complete props ->
  props !! "DV" = None ->
  result (verifyResponse (VObject props) k) = Return false.
Proof.
  intros Hhelper Hk Hrc Hall Hdv.
  destruct (convertible_dec props) as [Hconv|Hconv];
    [|rewrite unconvertible_run by assumption; reflexivity].
  unfold verifyResponse, verifyResponse_payload.
  rewrite try_convertible by assumption.
  pose proof (Hhelper (concatenatedValues props) k) as Hre.
  destruct (generateHmacSha512 (concatenatedValues props) k) as [tr [h|e]].
  - rewrite result_catch_bind, get_object, Hdv. cbn [default from_option id].
    destruct (truthy (VString h)); reflexivity.
  - cbn [mbind M_bind]. rewrite catch_readable by (apply Hre; reflexivity).
    reflexivity.
Qed.

(** *** Errors with a readable message *)

Lemma throws_readable_bind {A B} (m : M A) (f : A -> M B) :
  throws_readable m -> (forall a, throws_readable (f a)) -> throws_readable (m ≫= f).
Proof.
  intros Hm Hf e. destruct m as [tr [a|e']].
  - rewrite result_bind. apply Hf.
  - cbn. intros [= <-]. apply Hm. reflexivity.
Qed.

Lemma throws_readable_ret {A} (a : A) : throws_readable (mret a).
Proof. intros e. discriminate. Qed.

Lemma throws_readable_emit ev : throws_readable (emit ev).
Proof. intros e. discriminate. Qed.

Lemma throws_readable_throw {A} e : readable e -> throws_readable (@throw A e).
Proof. intros H e' [= <-]. exact H. Qed.

Lemma throws_readable_guard (c : bool) e :
  readable e -> throws_readable (if c then throw e else mret tt).
Proof.
  intros H. destruct c; [apply throws_readable_throw, H|apply throws_readable_ret].
Qed.

Lemma throws_readable_read response key :
  payload_readable response -> throws_readable (read response key).
Proof.
  intros H e. destruct response as [v|props]; cbn [read].
  - destruct v; cbn; try discriminate; intros [= <-]; apply readable_TypeError.
  - destruct (props !! key) as [[v|e']|] eqn:Hkey; try discriminate.
    intros [= <-]. apply (H key e' Hkey).
Qed.

Lemma throws_readable_has response key : throws_readable (has key response).
Proof.
  intros e. destruct response as [v|props]; cbn [has]; [|discriminate].
  destruct v; cbn; try discriminate; intros [= <-]; apply readable_TypeError.
Qed.

Lemma throws_readable_filterM {A} (p : A -> M bool) l :
  (forall a, throws_readable (p a)) -> throws_readable (filterM p l).
Proof.
  intros Hp. induction l as [|x l IH]; [apply throws_readable_ret|].
  cbn [filterM]. apply throws_readable_bind; [apply Hp|]. intros b.
  apply throws_readable_bind; [apply IH|]. intros rest. apply throws_readable_ret.
Qed.

Lemma throws_readable_mapM {A B} (f : A -> M B) l :
  (forall a, throws_readable (f a)) -> throws_readable (mapM f l).
Proof.
  intros Hf. induction l as [|x l IH]; [apply throws_readable_ret|].
  cbn [mapM]. apply throws_readable_bind; [apply Hf|]. intros b.
  apply throws_readable_bind; [apply IH|]. intros rest. apply throws_readable_ret.
Qed.

Lemma throws_readable_ToString v : throws_readable (lift (ToString v)).
Proof. intros e H. apply ToString_throw in H as ->. apply readable_TypeError. Qed.

Lemma throws_readable_join sep elems : throws_readable (lift (Array_join sep elems)).
Proof. intros e H. apply Array_join_throw in H as ->. apply readable_TypeError. Qed.

Lemma throws_readable_Buffer_from v :
  (forall o, throws_readable (lift (Buffer_from_object o))) ->
  throws_readable (Buffer_from v).
Proof.
  intros H. destruct v; cbn [Buffer_from];
    try apply H; try apply throws_readable_ret;
    apply throws_readable_throw, readable_TypeError.
Qed.

Lemma throws_readable_timingSafeEqual a b : throws_readable (timingSafeEqual a b).
Proof.
  unfold timingSafeEqual. destruct (Nat.eqb _ _);
    [apply throws_readable_ret|apply throws_readable_throw, readable_RangeError].
Qed.

(** With a helper and a [Buffer.from] that throw readable errors, and a
    payload whose getters do, every error of the [try] block is readable. *)
Lemma try_throws_readable response secretKey :
  (forall data key, throws_readable (generateHmacSha512 data key)) ->
  (forall o, throws_readable (lift (Buffer_from_object o))) ->
  payload_readable response ->
  throws_readable (verifyResponse_try response secretKey).
Proof.
  intros Hhelper Hbuffer Hpayload. unfold verifyResponse_try.
  apply throws_readable_bind; [apply throws_readable_guard, readable_Error|]. intros _.
  apply throws_readable_bind; [apply throws_readable_read, Hpayload|]. intros rc.
  destruct (negb (strict_eq_string rc RESPONSE_CODE_SUCCESSFUL)).
  - apply throws_readable_bind; [apply throws_readable_read, Hpayload|]. intros rc'.
    apply throws_readable_bind; [apply throws_readable_ToString|]. intros _.
    apply throws_readable_bind; [apply throws_readable_emit|]. intros _.
    apply throws_readable_ret.
  - apply throws_readable_bind.
    { apply throws_readable_filterM. intros field.
      apply throws_readable_bind; [apply throws_readable_has|]. intros b.
      apply throws_readable_ret. }
    intros missingFields.
    apply throws_readable_bind; [apply throws_readable_guard, readable_Error|]. intros _.
    apply throws_readable_bind.
    { apply throws_readable_mapM. intros key. apply throws_readable_read, Hpayload. }
    intros values.
    apply throws_readable_bind; [apply throws_readable_join|]. intros message.
    apply throws_readable_bind; [apply Hhelper|]. intros calculatedHash.
    apply throws_readable_bind; [apply throws_readable_guard, readable_Error|]. intros _.
    apply throws_readable_bind; [apply throws_readable_Buffer_from, Hbuffer|].
    intros calculatedDV.
    apply throws_readable_bind; [apply throws_readable_read, Hpayload|]. intros dv.
    apply throws_readable_bind; [apply throws_readable_Buffer_from, Hbuffer|].
    intros fonepayDV. apply throws_readable_timingSafeEqual.
Qed.

(** *** The claims *)


(** C2, as the code has it: [verifyResponse] returns a boolean, and an
    exception raised inside the [try] block is logged and turned into the
    return value false, for every secret key and every payload that is a
    plain data value or an object whose accessors throw errors with a
    readable message, the helper and [Buffer.from] throwing such errors
    only.  The [catch] block reads [error.message]: an error whose message
    cannot be read escapes it. *)
Theorem verifyResponse_never_throws response secretKey :
  (forall data key, throws_readable (generateHmacSha512 data key)) ->
  (forall o, throws_readable (lift (Buffer_from_object o))) ->
  payload_readable response ->
  exists b,
    result (verifyResponse_payload response secretKey) = Return b
    /\ match result (verifyResponse_try response secretKey) with
       | Return b' => b = b'
       | Throw e =>
           b = false
           /\ trace (verifyResponse_payload response secretKey)
              = trace (verifyResponse_try response secretKey) ++ [ConsoleError e]
       end.
Proof.
  intros Hhelper Hbuffer Hpayload.
  pose proof (try_throws_readable response secretKey Hhelper Hbuffer Hpayload) as Hre.
  unfold verifyResponse_payload.
  destruct (verifyResponse_try response secretKey) as [tr [b|e]].
  - exists b. split; reflexivity.
  - exists false. rewrite catch_readable by (apply Hre; reflexivity).
    repeat split; reflexivity.
Qed.

(** C3: when [RC] is not exactly the success sentinel the result is false,
    no keyed hash is computed, with truthy arguments the run consists of
    the informational log entry alone when [RC] converts to a string for
    the log message, and of the logged conversion error when it does not,
    and any two such runs, whatever their other fields, [DV] and secret
    key, return the same false. *)
Theorem status_gate_rejects r1 k1 r2 k2 :
  RC_of r1 <> VString RESPONSE_CODE_SUCCESSFUL ->
  RC_of r2 <> VString RESPONSE_CODE_SUCCESSFUL ->
  result (verifyResponse r1 k1) = Return false
  /\ List.filter is_hmac (trace (verifyResponse r1 k1)) = []
  /\ (truthy r1 = true -> truthy k1 = true ->
      match ToString (RC_of r1) with
      | Return _ => trace (verifyResponse r1 k1) = [ConsoleInfo (RC_of r1)]
      | Throw e => trace (verifyResponse r1 k1) = [ConsoleError e]
      end)
  /\ result (verifyResponse r1 k1) = result (verifyResponse r2 k2).
Proof.
  intros H1 H2.
  assert (Htr : truthy r1 = true -> truthy k1 = true ->
                match ToString (RC_of r1) with
                | Return _ => trace (verifyResponse r1 k1) = [ConsoleInfo (RC_of r1)]
                | Throw e => trace (verifyResponse r1 k1) = [ConsoleError e]
                end).
  { intros Hr Hk. unfold verifyResponse, verifyResponse_payload.
    rewrite try_not_successful by assumption.
    destruct (ToString (RC_of r1)) as [text|e] eqn:Hs; [reflexivity|].
    apply ToString_throw in Hs as ->. reflexivity. }
  rewrite !gate_result by assumption.
  split; [reflexivity|]. split; [|split; [exact Htr|reflexivity]].
  destruct (gate_run r1 k1 H1) as [-> | [-> | ->]]; reflexivity.
Qed.

(** C4: a payload that lacks one of the nine signed fields as a key is
    rejected, whatever the secret key. *)
Theorem missing_field_rejected props field secretKey :
  In field order -> props !! field = None ->
  result (verifyResponse (VObject props) secretKey) = Return false.
Proof.
  intros Hin Hnone.
  destruct (rc_cases (VObject props)) as [(props' & [= <-] & Hrc)|Hrc].
  - destruct (truthy secretKey) eqn:Hk.
    + unfold verifyResponse, verifyResponse_payload.
      rewrite (try_missing props secretKey field) by assumption. reflexivity.
    + rewrite falsy_run by (right; assumption). reflexivity.
  - apply gate_result, Hrc.
Qed.

(** C5: the keyed hash is computed over the nine values in the order PRN,
    PID, PS, RC, UID, BC, INI, P_AMT, R_AMT joined by single commas and
    nothing else; for the example of the specification the code builds
    "ORDER1,M001,success,successful,T123,B01,C,100.00,0.00". *)
Theorem message_is_canonical props r key :
  computes_hmac generateHmacSha512 ->
  signed_fields props r -> RC r = RESPONSE_CODE_SUCCESSFUL -> key <> ""%string ->
  concatenatedValues props = canonical_message r
  /\ List.filter is_hmac (trace (verifyResponse (VObject props) (VString key)))
     = [HmacComputed key (canonical_message r)]
  /\ forall dv, concatenatedValues (object_of (example_fields dv))
                = "ORDER1,M001,success,successful,T123,B01,C,100.00,0.00"%string.
Proof.
  intros Hhelper Hsigned Hrc Hkey. split; [apply signed_message; assumption|].
  split.
  - pose proof Hsigned as (_ & _ & _ & Hrc' & _). rewrite Hrc in Hrc'.
    rewrite (signed_run props key Hhelper Hkey Hrc' (signed_complete _ _ Hsigned)
               (signed_convertible _ _ Hsigned)).
    rewrite (signed_message _ _ Hsigned).
    destruct (result (Buffer_from _)) as [dv|e].
    + destruct (Nat.eqb _ _); reflexivity.
    + unfold try_catch. destruct (verifyResponse_catch e) as [tr res] eqn:Hcatch.
      unfold verifyResponse_catch in Hcatch.
      destruct (errorMessage e); injection Hcatch as <- _; reflexivity.
  - intros dv. rewrite (signed_message _ (example_fields dv)); [reflexivity|].
    repeat split; vm_compute; reflexivity.
Qed.

(** C6: a null or undefined payload, and an empty secret key with any
    payload, give false as a returned value. *)
Theorem missing_input_rejected response secretKey :
  result (verifyResponse VNull secretKey) = Return false
  /\ result (verifyResponse VUndefined secretKey) = Return false
  /\ result (verifyResponse response (VString "")) = Return false.
Proof.
  repeat split; rewrite falsy_run; try reflexivity; auto.
Qed.

(** C7, as the code has it: a [DV] of 8-bit characters that is not
    well-formed hex raises no decode error.  [Buffer.from] keeps the bytes
    of [prefix], the longest prefix of [DV] that is well-formed hex, and
    stops at the rest, which is not empty; the result is false when these
    bytes differ from the digest or a signed value does not convert to a
    string, and true when they are the digest, the values convert and the
    key is usable. *)
Theorem malformed_DV_truncated props dv key :
  computes_hmac generateHmacSha512 ->
  props !! "RC" = Some (VString RESPONSE_CODE_SUCCESSFUL) -> complete props ->
  props !! "DV" = Some (VString dv) ->
  well_formed_hex dv = false ->
  let digest := hmac_sha512 (utf8 key) (utf8 (concatenatedValues props)) in
  exists prefix rest,
    dv = (prefix +:+ rest)%string
    /\ well_formed_hex prefix = true
    /\ rest <> ""%string
    /\ (forall p t, dv = (p +:+ t)%string -> well_formed_hex p = true ->
                    (String.length p <= String.length prefix)%nat)
    /\ result (Buffer_from (VString dv)) = Return (hex_decode prefix)
    /\ String.length prefix = (2 * length (hex_decode prefix))%nat
    /\ (hex_decode prefix <> digest \/ ~ convertible props ->
        result (verifyResponse (VObject props) (VString key)) = Return false)
    /\ (key <> ""%string -> convertible props -> hex_decode prefix = digest ->
        result (verifyResponse (VObject props) (VString key)) = Return true).
Proof.
  intros Hhelper Hrc Hall Hdv Hbad digest.
  destruct (hex_prefix_spec dv) as ([rest Hrest] & Hwf & Hdec & Hlen).
  exists (hex_prefix dv), rest.
  split; [exact Hrest|]. split; [exact Hwf|].
  split; [apply (hex_prefix_proper dv rest Hbad Hrest)|].
  split; [intros p t; apply hex_prefix_longest|].
  rewrite Hdec. split; [reflexivity|]. split; [exact Hlen|].
  destruct (String.eqb_spec key "") as [->|Hkey].
  { split; [|contradiction]. intros _.
    rewrite falsy_run by (right; reflexivity). reflexivity. }
  destruct (convertible_dec props) as [Hconv|Hconv].
  - rewrite (complete_result props dv key Hhelper Hkey Hrc Hall Hconv Hdv). fold digest.
    remember (hex_decode dv) as fonepayDV. clearbody digest.
    destruct (bytes_eqb digest fonepayDV) eqn:Heqb.
    + apply bytes_eqb_eq in Heqb. split; [|reflexivity].
      intros [Hne|Hne]; [congruence|contradiction].
    + split; [reflexivity|]. intros _ _ Hd.
      symmetry in Hd. apply bytes_eqb_eq in Hd. congruence.
  - rewrite unconvertible_run by (assumption || apply truthy_string, Hkey).
    split; [reflexivity|]. intros _ ?. contradiction.
Qed.

(** C8: when the bytes obtained from [DV] are not 64 in number, the length
    of the digest, the result is false and nothing is thrown to the caller:
    with the nine values joined into a message, the hash of that message is
    computed and the comparison fails with a length error, which is caught
    and logged; had a value no conversion to a string, the run would end at
    the join. *)
Theorem length_mismatch_rejected props key fonepayDV :
  computes_hmac generateHmacSha512 ->
  props !! "RC" = Some (VString RESPONSE_CODE_SUCCESSFUL) -> complete props ->
  result (Buffer_from (default VUndefined (props !! "DV"))) = Return fonepayDV ->
  length fonepayDV <> 64%nat ->
  result (verifyResponse (VObject props) (VString key)) = Return false
  /\ (key <> ""%string ->
      match joined props with
      | Return message =>
          trace (verifyResponse (VObject props) (VString key))
          = [HmacComputed key message;
             ConsoleError (RangeError "ERR_CRYPTO_TIMING_SAFE_EQUAL_LENGTH")]
      | Throw e =>
          trace (verifyResponse (VObject props) (VString key)) = [ConsoleError e]
      end).
Proof.
  intros Hhelper Hrc Hall Hdv Hlen.
  destruct (String.eqb_spec key "") as [->|Hkey].
  { split; [|contradiction]. rewrite falsy_run by (right; reflexivity). reflexivity. }
  destruct (joined props) as [message|e] eqn:Hj.
  - apply joined_return in Hj as [Hconv <-].
    rewrite (length_mismatch_run props key fonepayDV) by assumption.
    split; [reflexivity|]. intros _. reflexivity.
  - apply joined_throw in Hj as [Hconv ->].
    rewrite unconvertible_run by (assumption || apply truthy_string, Hkey).
    split; [reflexivity|]. intros _. reflexivity.
Qed.

(** C9: a payload with the success sentinel and the nine signed fields but
    no [DV] key passes the completeness check and is rejected all the same:
    the result is false for every secret key, the helper throwing errors
    with a readable message, and with a usable key and the nine values
    joined into a message the hash of that message is computed before the
    absent value fails to decode; had a value no conversion to a string,
    the run would end at the join. *)
Theorem absent_DV_rejected props secretKey :
  props !! "RC" = Some (VString RESPONSE_CODE_SUCCESSFUL) -> complete props ->
  props !! "DV" = None ->
  ((forall data key, throws_readable (generateHmacSha512 data key)) ->
   result (verifyResponse (VObject props) secretKey) = Return false)
  /\ missing props order = []
  /\ (computes_hmac generateHmacSha512 ->
      forall key, secretKey = VString key -> key <> ""%string ->
      result (verifyResponse (VObject props) secretKey) = Return false
      /\ match joined props with
         | Return message =>
             trace (verifyResponse (VObject props) secretKey)
             = [HmacComputed key message;
                ConsoleError (TypeError "ERR_INVALID_ARG_TYPE")]
         | Throw e =>
             trace (verifyResponse (VObject props) secretKey) = [ConsoleError e]
         end).
Proof.
  intros Hrc Hall Hdv.
  split; [|split; [apply missing_nil; assumption|]].
  - intros Hhelper. destruct (truthy secretKey) eqn:Hk.
    + apply absent_DV_result; assumption.
    + rewrite falsy_run by (right; assumption). reflexivity.
  - intros Hhelper key -> Hkey.
    destruct (joined props) as [message|e] eqn:Hj.
    + apply joined_return in Hj as [Hconv <-].
      rewrite signed_run by assumption. rewrite Hdv. split; reflexivity.
    + apply joined_throw in Hj as [Hconv ->].
      rewrite unconvertible_run by (assumption || apply truthy_string, Hkey).
      split; reflexivity.
Qed.

(** C10: two spellings of [DV] that differ only in the case of letters give
    the same run, for every object, every secret key and every helper. *)
Theorem DV_case_insensitive props secretKey dv1 dv2 :
  lower dv1 = lower dv2 ->
  verifyResponse (VObject (<["DV" := VString dv1]> props)) secretKey
  = verifyResponse (VObject (<["DV" := VString dv2]> props)) secretKey.
Proof.
  intros Hlow. apply object_run_ext.
  - rewrite !lookup_insert_ne by discriminate. reflexivity.
  - unfold missing, order. cbn [List.filter].
    rewrite !lookup_insert_ne by discriminate. reflexivity.
  - unfold joined, field_values, order. cbn [map].
    rewrite !lookup_insert_ne by discriminate. reflexivity.
  - rewrite !lookup_insert_eq. cbn [default from_option id].
    rewrite !Buffer_from_string.
    rewrite <- (hex_decode_lower dv1), <- (hex_decode_lower dv2), Hlow. reflexivity.
Qed.

(** *** Further lemmas on strings, hex and objects *)

Lemma string_app_assoc (a b c : string) :
  ((a +:+ b) +:+ c)%string = (a +:+ (b +:+ c))%string.
Proof.
  induction a as [|x a IH]; [reflexivity|].
  change (String x ((a +:+ b) +:+ c) = String x (a +:+ (b +:+ c))).
  rewrite IH. reflexivity.
Qed.

(** Induction on strings two characters at a time, as the hex decoder reads. *)
Lemma string_pair_ind (P : string -> Prop) :
  P ""%string ->
  (forall c, P (String c "")) ->
  (forall c1 c2 s, P s -> P (String c1 (String c2 s))) ->
  forall s, P s.
Proof.
  intros H0 H1 H2 s.
  enough (H : P s /\ forall c, P (String c s)) by apply H.
  induction s as [|a s [IHs IHc]]; [split; auto|].
  split; [apply IHc|]. intros c. apply H2, IHs.
Qed.

Lemma Z_of_byte_of_Z n : 0 <= n < 256 -> Z_of_byte (byte_of_Z n) = n.
Proof.
  intros Hn. unfold Z_of_byte, byte_of_Z.
  change 255 with (Z.ones 8). rewrite Z.land_ones by lia.
  rewrite Z.mod_small by lia.
  destruct (Byte.of_N (Z.to_N n)) as [b|] eqn:Hb.
  - apply Byte.to_of_N in Hb. rewrite Hb. lia.
  - apply Byte.of_N_None_iff in Hb. lia.
Qed.

Lemma unhex_digit c a :
  unhex c = Some a -> 0 <= a < 16 /\ hex_digit a = lower_ascii c.
Proof.
  destruct c as [[] [] [] [] [] [] [] []]; intros H; vm_compute in H;
    try discriminate; injection H as <-; split; (lia || reflexivity).
Qed.

Lemma hex_of_byte_pack a b :
  0 <= a < 16 -> 0 <= b < 16 ->
  hex_of_byte (byte_of_Z (16 * a + b)) = [hex_digit a; hex_digit b].
Proof.
  intros Ha Hb. unfold hex_of_byte. rewrite Z_of_byte_of_Z by lia.
  replace ((16 * a + b) / 16) with a by (apply Z.div_unique with b; lia).
  replace ((16 * a + b) mod 16) with b by (apply Z.mod_unique with a; lia).
  reflexivity.
Qed.

Lemma hex_encode_decode_prefix s :
  hex_encode (hex_decode s)
  = lower (String.substring 0 (2 * length (hex_decode s)) s).
Proof.
  induction s as [|c|c1 c2 s IH] using string_pair_ind; try reflexivity.
  cbn [hex_decode].
  destruct (unhex c1) as [a|] eqn:H1; [|reflexivity].
  destruct (unhex c2) as [b|] eqn:H2; [|reflexivity].
  apply unhex_digit in H1 as [Ha E1]. apply unhex_digit in H2 as [Hb E2].
  cbn [length]. replace (2 * S (length (hex_decode s)))%nat
    with (S (S (2 * length (hex_decode s)))) by lia.
  cbn [String.substring lower]. rewrite <- IH, <- E1, <- E2.
  unfold hex_encode. cbn [flat_map]. rewrite hex_of_byte_pack by assumption.
  reflexivity.
Qed.

Lemma well_formed_decode_length s :
  well_formed_hex s = true -> (2 * length (hex_decode s))%nat = String.length s.
Proof.
  induction s as [|c|c1 c2 s IH] using string_pair_ind;
    [reflexivity|discriminate|].
  cbn [well_formed_hex hex_decode String.length].
  destruct (unhex c1), (unhex c2); try discriminate.
  intros H. apply IH in H. cbn [length]. lia.
Qed.

Lemma substring_all s : String.substring 0 (String.length s) s = s.
Proof. induction s as [|c s IH]; [reflexivity|]. cbn. rewrite IH. reflexivity. Qed.

Lemma hex_decode_app dv suffix :
  well_formed_hex dv = true ->
  hex_decode (dv +:+ suffix) = hex_decode dv ++ hex_decode suffix.
Proof.
  induction dv as [|c|c1 c2 dv IH] using string_pair_ind;
    [reflexivity|discriminate|].
  change (String c1 (String c2 dv) +:+ suffix)%string
    with (String c1 (String c2 (dv +:+ suffix))).
  cbn [well_formed_hex hex_decode].
  destruct (unhex c1), (unhex c2); try discriminate.
  intros H. rewrite (IH H). reflexivity.
Qed.

Lemma missing_In props l f :
  In f (missing props l) <-> In f l /\ props !! f = None.
Proof.
  unfold missing. rewrite filter_In.
  destruct (props !! f); intuition congruence.
Qed.

Lemma missing_nil_complete props : missing props order = [] -> complete props.
Proof.
  intros Hnil. apply List.Forall_forall. intros f Hin.
  destruct (props !! f) eqn:Hf; [eauto|].
  assert (Hm : In f (missing props order)) by (apply missing_In; auto).
  rewrite Hnil in Hm. destruct Hm.
Qed.

(** The run looks at [DV] through [Buffer.from] only. *)
Lemma DV_decoded_only props k v1 v2 :
  Buffer_from v1 = Buffer_from v2 ->
  verifyResponse (VObject (<["DV" := v1]> props)) k
  = verifyResponse (VObject (<["DV" := v2]> props)) k.
Proof.
  intros Hdec. apply object_run_ext.
  - rewrite !lookup_insert_ne by discriminate. reflexivity.
  - unfold missing, order. cbn [List.filter].
    rewrite !lookup_insert_ne by discriminate. reflexivity.
  - unfold joined, field_values, order. cbn [map].
    rewrite !lookup_insert_ne by discriminate. reflexivity.
  - rewrite !lookup_insert_eq. exact Hdec.
Qed.

(** *** Further properties of the verifier *)

(** X1: signing and verifying compose.  A response whose [DV] is the
    lower-case hex of the HMAC-SHA512 of its canonical message, with the
    success sentinel as [RC], verifies under the same non-empty key, and the
    run writes nothing to the console. *)
Theorem signed_response_verifies props r key :
  computes_hmac generateHmacSha512 ->
  carries props r -> RC r = RESPONSE_CODE_SUCCESSFUL -> key <> ""%string ->
  DV r = hex_encode (hmac_sha512 (utf8 key) (utf8 (canonical_message r))) ->
  verifyResponse (VObject props) (VString key)
  = ([HmacComputed key (canonical_message r)], Return true).
Proof.
  intros Hhelper [Hsigned Hdv] Heq Hkey Hsig.
  pose proof Hsigned as (_ & _ & _ & Hrc & _). rewrite Heq in Hrc.
  rewrite (signed_run props key Hhelper Hkey Hrc (signed_complete _ _ Hsigned)
             (signed_convertible _ _ Hsigned)).
  rewrite (signed_message _ _ Hsigned), Hdv, Hsig. cbn [default from_option id].
  rewrite Buffer_from_string, hex_decode_encode. cbn [result mret M_ret snd].
  rewrite Nat.eqb_refl.
  replace (bytes_eqb _ _) with true; [reflexivity|].
  symmetry. apply bytes_eqb_eq. reflexivity.
Qed.

(** X2: what an accepted response proves, for a [DV] of 8-bit characters
    (code units below 256).  If a payload with ten string fields verifies
    under a non-empty key, then [RC] is the success sentinel, the first 128
    characters of [DV], lower-cased, are the hex of the HMAC-SHA512 of the
    canonical message, and nothing was logged. *)
Theorem verified_DV_is_digest props r key :
  computes_hmac generateHmacSha512 ->
  carries props r -> key <> ""%string ->
  result (verifyResponse (VObject props) (VString key)) = Return true ->
  RC r = RESPONSE_CODE_SUCCESSFUL
  /\ lower (String.substring 0 128 (DV r))
     = hex_encode (hmac_sha512 (utf8 key) (utf8 (canonical_message r)))
  /\ trace (verifyResponse (VObject props) (VString key))
     = [HmacComputed key (canonical_message r)].
Proof.
  intros Hhelper Hc Hkey Htrue.
  destruct (String.eqb_spec (RC r) RESPONSE_CODE_SUCCESSFUL) as [Heq|Hne].
  2:{ destruct Hc as [(_ & _ & _ & Hrc & _) _].
      rewrite gate_result in Htrue
        by (cbn [RC_of]; rewrite Hrc; cbn; congruence).
      discriminate. }
  split; [exact Heq|].
  rewrite (carried_result props r key Hhelper Hc Heq Hkey) in Htrue.
  assert (Hd : hmac_sha512 (utf8 key) (utf8 (canonical_message r)) = hex_decode (DV r)).
  { apply bytes_eqb_eq. congruence. }
  assert (Hlen : length (hex_decode (DV r)) = 64%nat)
    by (rewrite <- Hd; apply hmac_sha512_length).
  split.
  - rewrite Hd, hex_encode_decode_prefix, Hlen. reflexivity.
  - destruct Hc as [Hsigned Hdv].
    pose proof Hsigned as (_ & _ & _ & Hrc & _). rewrite Heq in Hrc.
    rewrite (signed_run props key Hhelper Hkey Hrc (signed_complete _ _ Hsigned)
               (signed_convertible _ _ Hsigned)).
    rewrite (signed_message _ _ Hsigned), Hdv. cbn [default from_option id].
    rewrite Buffer_from_string, Hd. cbn [result mret M_ret snd].
    rewrite Nat.eqb_refl. reflexivity.
Qed.

(** X3: a [DV] of the right length and the wrong content is rejected without
    any console output: with the sentinel, the nine fields joined into a
    message and a usable key, 64 decoded bytes that differ from the digest
    of that message give false and the run consists of the hash computation
    alone. *)
Theorem digest_mismatch_silent props key message fonepayDV :
  computes_hmac generateHmacSha512 ->
  key <> ""%string ->
  props !! "RC" = Some (VString RESPONSE_CODE_SUCCESSFUL) -> complete props ->
  joined props = Return message ->
  result (Buffer_from (default VUndefined (props !! "DV"))) = Return fonepayDV ->
  length fonepayDV = 64%nat ->
  fonepayDV <> hmac_sha512 (utf8 key) (utf8 message) ->
  verifyResponse (VObject props) (VString key)
  = ([HmacComputed key message], Return false).
Proof.
  intros Hhelper Hkey Hrc Hall Hj Hdv Hlen Hne.
  apply joined_return in Hj as [Hconv <-].
  rewrite (signed_run props key Hhelper Hkey Hrc Hall Hconv), Hdv.
  rewrite hmac_sha512_length, Hlen. cbn [Nat.eqb].
  remember (hmac_sha512 (utf8 key) (utf8 (concatenatedValues props))) as digest.
  destruct (bytes_eqb digest fonepayDV) eqn:Heqb; [|reflexivity].
  apply bytes_eqb_eq in Heqb. congruence.
Qed.

(** X4: the missing-fields error.  When the status gate passes with a truthy
    key and some field of [order] is not a key of the payload, the run is a
    single console.error entry whose message lists exactly the absent fields
    of [order], in that order, separated by ", "; the helper is not called,
    and [DV] is never listed. *)
Theorem missing_fields_reported props secretKey :
  truthy secretKey = true ->
  props !! "RC" = Some (VString RESPONSE_CODE_SUCCESSFUL) ->
  missing props order <> [] ->
  verifyResponse (VObject props) secretKey
  = ([ConsoleError (Error ("Missing required fields in response: "
                             +:+ String.concat ", " (missing props order)))],
     Return false)
  /\ (forall field, In field (missing props order)
                    <-> In field order /\ props !! field = None)
  /\ ~ In "DV"%string (missing props order).
Proof.
  intros Hk Hrc Hmiss. split; [|split].
  - unfold verifyResponse, verifyResponse_payload.
    rewrite try_past_gate by assumption.
    destruct (missing props order) as [|f rest]; [contradiction|]. reflexivity.
  - intros field. apply missing_In.
  - intros Hin. apply missing_In in Hin as [Hin _].
    cbn in Hin. intuition discriminate.
Qed.

(** X5: properties outside the ten field names do not matter.  Adding or
    overwriting any property whose name is neither in [order] nor "DV"
    leaves the whole run unchanged. *)
Theorem extra_field_ignored props name v secretKey :
  ~ In name order -> name <> "DV"%string ->
  verifyResponse (VObject (<[name := v]> props)) secretKey
  = verifyResponse (VObject props) secretKey.
Proof.
  intros Hout Hdv.
  assert (Hlook : forall f, In f order -> <[name := v]> props !! f = props !! f).
  { intros f Hin. apply lookup_insert_ne. intros ->. contradiction. }
  apply object_run_ext.
  - apply Hlook. cbn. tauto.
  - unfold missing. apply filter_ext_in. intros f Hin. rewrite (Hlook f Hin).
    reflexivity.
  - unfold joined, field_values. f_equal.
    apply map_ext_in. intros f Hin. rewrite (Hlook f Hin). reflexivity.
  - rewrite lookup_insert_ne by congruence. reflexivity.
Qed.

(** X6: presence is tested on the key, not on the value.  A signed field
    other than [RC] whose value is [undefined] or [null] passes the
    completeness check and enters the message as the empty string: the run
    is the one of the same payload with the empty string in that field. *)
Theorem nullish_field_is_empty props field v secretKey :
  In field order -> field <> "RC"%string ->
  v = VUndefined \/ v = VNull ->
  verifyResponse (VObject (<[field := v]> props)) secretKey
  = verifyResponse (VObject (<[field := VString ""]> props)) secretKey.
Proof.
  intros Hin Hrc Hv.
  assert (Hdv : field <> "DV"%string)
    by (intros ->; cbn in Hin; intuition discriminate).
  assert (Hj : join_element v = join_element (VString ""))
    by (destruct Hv as [-> | ->]; reflexivity).
  apply object_run_ext.
  - rewrite !lookup_insert_ne by congruence. reflexivity.
  - unfold missing. apply filter_ext. intros f.
    destruct (decide (field = f)) as [->|Hne].
    + rewrite !lookup_insert_eq. reflexivity.
    + rewrite !lookup_insert_ne by assumption. reflexivity.
  - unfold joined, Array_join, field_values. f_equal.
    rewrite !map_map. apply map_ext. intros f.
    destruct (decide (field = f)) as [->|Hne].
    + rewrite !lookup_insert_eq. exact Hj.
    + rewrite !lookup_insert_ne by assumption. reflexivity.
  - rewrite !lookup_insert_ne by congruence. reflexivity.
Qed.

(** X7: the message has no field boundaries.  A comma inside a value is not
    escaped, so moving ", b" from the end of [PRN] to the front of [PID]
    gives the same message and the same run: the two payloads verify, or
    fail, together. *)
Theorem comma_shift_same_run props a b c secretKey :
  verifyResponse
    (VObject (<["PRN" := VString (a +:+ "," +:+ b)]> (<["PID" := VString c]> props)))
    secretKey
  = verifyResponse
      (VObject (<["PRN" := VString a]> (<["PID" := VString (b +:+ "," +:+ c)]> props)))
      secretKey.
Proof.
  apply object_run_ext.
  - rewrite !lookup_insert_ne by discriminate. reflexivity.
  - unfold missing, order. cbn [List.filter].
    rewrite !lookup_insert_eq.
    rewrite !(lookup_insert_ne _ "PRN" "PID") by discriminate.
    rewrite !lookup_insert_eq.
    rewrite !(lookup_insert_ne _ "PRN") by discriminate.
    rewrite !(lookup_insert_ne _ "PID") by discriminate. reflexivity.
  - unfold joined, Array_join, field_values, order.
    cbn [map].
    rewrite !lookup_insert_eq.
    rewrite !(lookup_insert_ne _ "PRN" "PID") by discriminate.
    rewrite !lookup_insert_eq.
    rewrite !(lookup_insert_ne _ "PRN") by discriminate.
    rewrite !(lookup_insert_ne _ "PID") by discriminate.
    cbn [default from_option id join_element ToString join_outcomes].
    match goal with
    | |- match match ?tail with Return _ => _ | Throw _ => _ end
         with Return _ => _ | Throw _ => _ end = _ =>
        destruct tail as [t|e]; [|reflexivity]
    end.
    rewrite !string_app_assoc. reflexivity.
  - rewrite !lookup_insert_ne by discriminate. reflexivity.
Qed.

(** X8: failures of the helper.  Past the status gate and the completeness
    check, with the nine values joined into a message, a helper that returns
    the empty string on that message makes the run end with the error
    "Failed to generate hash for response verification", and a helper that
    throws an error with a readable message has it logged; both runs return
    false and keep what the helper did before. *)
Theorem helper_failure_logged props secretKey message tr :
  truthy secretKey = true ->
  props !! "RC" = Some (VString RESPONSE_CODE_SUCCESSFUL) -> complete props ->
  joined props = Return message ->
  (generateHmacSha512 message secretKey = (tr, Return ""%string) ->
   verifyResponse (VObject props) secretKey
   = (tr ++ [ConsoleError
               (Error "Failed to generate hash for response verification")],
      Return false))
  /\ (forall e,
      readable e ->
      generateHmacSha512 message secretKey = (tr, Throw e) ->
      verifyResponse (VObject props) secretKey
      = (tr ++ [ConsoleError e], Return false)).
Proof.
  intros Hk Hrc Hall Hj. unfold verifyResponse, verifyResponse_payload.
  rewrite try_complete, Hj, bind_lift_return by assumption.
  split; [intros ->|intros e Hre ->].
  - cbn. rewrite app_nil_r. reflexivity.
  - cbn [mbind M_bind]. apply catch_readable, Hre.
Qed.

(** X9: what every acceptance went through, for any helper and any values.
    If [verifyResponse] returns true then the payload is an object whose
    [RC] is the sentinel string and which has the nine fields, the secret key
    is truthy, the helper returned a non-empty hash, and the bytes obtained
    from [DV] are the bytes decoded from that hash. *)
Theorem accepted_only_if response secretKey :
  result (verifyResponse response secretKey) = Return true ->
  exists props tr calculatedHash,
    response = VObject props
    /\ truthy secretKey = true
    /\ props !! "RC" = Some (VString RESPONSE_CODE_SUCCESSFUL)
    /\ complete props
    /\ generateHmacSha512 (concatenatedValues props) secretKey
       = (tr, Return calculatedHash)
    /\ calculatedHash <> ""%string
    /\ result (Buffer_from (default VUndefined (props !! "DV")))
       = Return (hex_decode calculatedHash).
Proof.
  intros Htrue.
  destruct (truthy secretKey) eqn:Hk;
    [|rewrite falsy_run in Htrue by (right; assumption); discriminate].
  destruct (rc_cases response) as [(props & -> & Hrc)|Hrc];
    [|rewrite gate_result in Htrue by assumption; discriminate].
  destruct (missing props order) as [|f rest] eqn:Hm.
  2:{ unfold verifyResponse, verifyResponse_payload in Htrue.
      rewrite try_past_gate, Hm in Htrue by assumption. discriminate. }
  pose proof (missing_nil_complete props Hm) as Hall.
  destruct (convertible_dec props) as [Hconv|Hconv];
    [|rewrite unconvertible_run in Htrue by assumption; discriminate].
  unfold verifyResponse, verifyResponse_payload in Htrue.
  rewrite try_convertible in Htrue by assumption.
  destruct (generateHmacSha512 (concatenatedValues props) secretKey)
    as [tr [hash|e]] eqn:Hh.
  2:{ apply caught_not_true in Htrue. contradiction. }
  rewrite result_catch_bind in Htrue.
  destruct (String.eqb_spec hash "") as [->|Hne]; [discriminate|].
  rewrite truthy_string in Htrue by assumption. cbn [negb] in Htrue.
  rewrite bind_ret, Buffer_from_string, bind_ret, get_object, bind_ret in Htrue.
  pose proof (Buffer_from_pure (default VUndefined (props !! "DV"))) as Hpure.
  destruct (Buffer_from (default VUndefined (props !! "DV"))) as [tr' [dv|e]] eqn:HB;
    injection Hpure as ->; [|apply caught_not_true in Htrue; contradiction].
  rewrite result_catch_bind in Htrue. unfold timingSafeEqual in Htrue.
  destruct (Nat.eqb (length (hex_decode hash)) (length dv));
    [|apply caught_not_true in Htrue; contradiction].
  injection Htrue as Heqb. apply bytes_eqb_eq in Heqb. subst dv.
  exists props, tr, hash. rewrite HB. repeat split; assumption || reflexivity.
Qed.

(** X10: tampering with [DV] is detected.  If a payload verifies under a
    string key, the same payload with a [DV] that decodes to other bytes
    does not. *)
Theorem tampered_DV_rejected props key dv dv' :
  computes_hmac generateHmacSha512 ->
  result (verifyResponse (VObject (<["DV" := VString dv]> props)) (VString key))
  = Return true ->
  hex_decode dv' <> hex_decode dv ->
  result (verifyResponse (VObject (<["DV" := VString dv']> props)) (VString key))
  = Return false.
Proof.
  intros Hhelper Htrue Hne.
  destruct (String.eqb_spec key "") as [->|Hkey];
    [rewrite falsy_run by (right; reflexivity); reflexivity|].
  destruct (rc_cases (VObject (<["DV" := VString dv']> props)))
    as [(p & [= <-] & Hrc')|Hrc']; [|apply gate_result, Hrc'].
  assert (Hrc : <["DV" := VString dv]> props !! "RC"
                = Some (VString RESPONSE_CODE_SUCCESSFUL))
    by (rewrite lookup_insert_ne in * by discriminate; assumption).
  assert (Hmiss : missing (<["DV" := VString dv']> props) order
                  = missing (<["DV" := VString dv]> props) order).
  { unfold missing, order. cbn [List.filter].
    rewrite !lookup_insert_ne by discriminate. reflexivity. }
  assert (Hjoin : joined (<["DV" := VString dv']> props)
                  = joined (<["DV" := VString dv]> props)).
  { unfold joined, field_values, order. cbn [map].
    rewrite !lookup_insert_ne by discriminate. reflexivity. }
  assert (Hmsg : concatenatedValues (<["DV" := VString dv']> props)
                 = concatenatedValues (<["DV" := VString dv]> props))
    by (unfold concatenatedValues; rewrite Hjoin; reflexivity).
  destruct (missing (<["DV" := VString dv]> props) order) as [|f rest] eqn:Hm.
  2:{ unfold verifyResponse, verifyResponse_payload.
      rewrite try_past_gate, Hmiss
        by (assumption || apply truthy_string; assumption).
      reflexivity. }
  pose proof (missing_nil_complete _ Hm) as Hall.
  pose proof (missing_nil_complete _ Hmiss) as Hall'.
  destruct (convertible_dec (<["DV" := VString dv]> props)) as [Hconv|Hconv].
  2:{ rewrite unconvertible_run in Htrue
        by (assumption || apply truthy_string, Hkey).
      discriminate. }
  assert (Hconv' : convertible (<["DV" := VString dv']> props))
    by (unfold convertible in *; rewrite Hjoin; exact Hconv).
  rewrite (complete_result _ dv key Hhelper Hkey Hrc Hall Hconv) in Htrue
    by apply lookup_insert_eq.
  rewrite (complete_result _ dv' key Hhelper Hkey Hrc' Hall' Hconv')
    by apply lookup_insert_eq.
  rewrite Hmsg.
  remember (hmac_sha512 (utf8 key)
              (utf8 (concatenatedValues (<["DV" := VString dv]> props)))) as digest.
  assert (Hd : digest = hex_decode dv) by (apply bytes_eqb_eq; congruence).
  destruct (bytes_eqb digest (hex_decode dv')) eqn:Heqb; [|reflexivity].
  apply bytes_eqb_eq in Heqb. congruence.
Qed.

(** X11: what follows a well-formed [DV] is not looked at.  Appending to a
    well-formed hex [DV] any text of 8-bit characters (code units below
    256) that does not start with two hex digits leaves the whole run
    unchanged, for every object, key and helper. *)
Theorem DV_suffix_ignored props secretKey dv suffix :
  well_formed_hex dv = true -> hex_decode suffix = [] ->
  verifyResponse (VObject (<["DV" := VString (dv +:+ suffix)]> props)) secretKey
  = verifyResponse (VObject (<["DV" := VString dv]> props)) secretKey.
Proof.
  intros Hwf Hsuffix. apply DV_decoded_only.
  rewrite !Buffer_from_string, (hex_decode_app dv suffix Hwf), Hsuffix, app_nil_r.
  reflexivity.
Qed.

(** X12: hex encoding and decoding round-trip on bytes.  The hex of any byte
    sequence is well-formed, lower-case, two characters per byte, and
    decodes back to the same bytes. *)
Theorem hex_decode_hex_encode bs :
  hex_decode (hex_encode bs) = bs
  /\ well_formed_hex (hex_encode bs) = true
  /\ lower (hex_encode bs) = hex_encode bs
  /\ String.length (hex_encode bs) = (2 * length bs)%nat.
Proof.
  pose proof (hex_decode_encode bs) as Hdec.
  assert (Hwf : well_formed_hex (hex_encode bs) = true).
  { induction bs as [|b bs IH]; [reflexivity|].
    rewrite hex_encode_cons. cbn [well_formed_hex].
    rewrite <- IH by apply hex_decode_encode. clear. destruct b; reflexivity. }
  assert (Hlen : String.length (hex_encode bs) = (2 * length bs)%nat).
  { rewrite <- (well_formed_decode_length _ Hwf), Hdec. reflexivity. }
  repeat split; try assumption.
  rewrite <- Hdec at 2. rewrite hex_encode_decode_prefix, Hdec, <- Hlen.
  rewrite substring_all. reflexivity.
Qed.

(** X13: the round trip on strings.  A well-formed hex string decodes to
    half as many bytes as it has characters, and encoding them gives the
    string back with its letters in lower case. *)
Theorem hex_encode_hex_decode s :
  well_formed_hex s = true ->
  hex_encode (hex_decode s) = lower s
  /\ (2 * length (hex_decode s))%nat = String.length s.
Proof.
  intros Hwf. pose proof (well_formed_decode_length s Hwf) as Hlen.
  split; [|exact Hlen].
  rewrite hex_encode_decode_prefix, Hlen, substring_all. reflexivity.
Qed.

Lemma split_at_comma a a' rest rest' :
  comma_free a = true -> comma_free a' = true ->
  (a +:+ "," +:+ rest)%string = (a' +:+ "," +:+ rest')%string ->
  a = a' /\ rest = rest'.
Proof.
  revert a'. induction a as [|c a IH]; intros [|c' a'] Ha Ha' Heq.
  - change (String "," rest = String "," rest') in Heq.
    injection Heq as ->. auto.
  - change (String "," rest = String c' (a' +:+ "," +:+ rest')) in Heq.
    injection Heq as <- _. discriminate.
  - change (String c (a +:+ "," +:+ rest) = String "," rest') in Heq.
    injection Heq as -> _. discriminate.
  - change (String c (a +:+ "," +:+ rest) = String c' (a' +:+ "," +:+ rest')) in Heq.
    injection Heq as -> Heq. cbn [comma_free] in Ha, Ha'.
    apply andb_true_iff in Ha as [_ Ha]. apply andb_true_iff in Ha' as [_ Ha'].
    destruct (IH a' Ha Ha' Heq) as [-> ->]. auto.
Qed.

(** X14: for a well-formed [DV] the verdict is a comparison of hex strings.
    A payload with ten string fields and a well-formed hex [DV] verifies
    under a non-empty key exactly when [RC] is the sentinel and [DV],
    lower-cased, is the hex of the HMAC-SHA512 of the canonical message. *)
Theorem well_formed_DV_accepted_iff props r key :
  computes_hmac generateHmacSha512 ->
  carries props r -> key <> ""%string -> well_formed_hex (DV r) = true ->
  result (verifyResponse (VObject props) (VString key)) = Return true
  <-> RC r = RESPONSE_CODE_SUCCESSFUL
      /\ lower (DV r) = hex_encode (hmac_sha512 (utf8 key) (utf8 (canonical_message r))).
Proof.
  intros Hhelper Hc Hkey Hwf.
  assert (Hround : hex_encode (hex_decode (DV r)) = lower (DV r)).
  { rewrite hex_encode_decode_prefix, (well_formed_decode_length _ Hwf), substring_all.
    reflexivity. }
  destruct (String.eqb_spec (RC r) RESPONSE_CODE_SUCCESSFUL) as [Heq|Hne].
  - rewrite (carried_result props r key Hhelper Hc Heq Hkey).
    remember (hmac_sha512 (utf8 key) (utf8 (canonical_message r))) as digest.
    split.
    + intros [= Heqb]. apply bytes_eqb_eq in Heqb. subst digest.
      rewrite Heqb, Hround. auto.
    + intros [_ Hlow]. f_equal. apply bytes_eqb_eq.
      rewrite <- (hex_decode_lower (DV r)), Hlow, hex_decode_encode. reflexivity.
  - destruct Hc as [(_ & _ & _ & Hrc & _) _].
    rewrite gate_result by (cbn [RC_of]; rewrite Hrc; cbn; congruence).
    split; [discriminate|]. intros [? _]. contradiction.
Qed.

(** X15: without commas in the values the message determines the fields.
    Two payloads whose first eight signed values contain no comma and for
    which the code builds the same message agree on all nine signed
    values. *)
Theorem message_determines_fields props1 r1 props2 r2 :
  signed_fields props1 r1 -> signed_fields props2 r2 ->
  comma_free_fields r1 -> comma_free_fields r2 ->
  concatenatedValues props1 = concatenatedValues props2 ->
  PRN r1 = PRN r2 /\ PID r1 = PID r2 /\ PS r1 = PS r2 /\ RC r1 = RC r2
  /\ UID r1 = UID r2 /\ BC r1 = BC r2 /\ INI r1 = INI r2
  /\ P_AMT r1 = P_AMT r2 /\ R_AMT r1 = R_AMT r2.
Proof.
  intros Hs1 Hs2 (A1 & A2 & A3 & A4 & A5 & A6 & A7 & A8)
    (B1 & B2 & B3 & B4 & B5 & B6 & B7 & B8) Hmsg.
  rewrite (signed_message _ _ Hs1), (signed_message _ _ Hs2) in Hmsg.
  unfold canonical_message in Hmsg.
  apply split_at_comma in Hmsg as [E1 Hmsg]; [|assumption..].
  apply split_at_comma in Hmsg as [E2 Hmsg]; [|assumption..].
  apply split_at_comma in Hmsg as [E3 Hmsg]; [|assumption..].
  apply split_at_comma in Hmsg as [E4 Hmsg]; [|assumption..].
  apply split_at_comma in Hmsg as [E5 Hmsg]; [|assumption..].
  apply split_at_comma in Hmsg as [E6 Hmsg]; [|assumption..].
  apply split_at_comma in Hmsg as [E7 Hmsg]; [|assumption..].
  apply split_at_comma in Hmsg as [E8 Hmsg]; [|assumption..].
  repeat split; assumption.
Qed.

End Verifier.

(** ** The runtime primitives on the examples of their documentation *)

(** Node's documentation of the "hex" encoding: truncation at the first
    character that is not a hex digit, and of a single last digit. *)
Example hex_decode_truncates :
  hex_decode "1ag123" = [x1a] /\ hex_decode "1a7" = [x1a]
  /\ hex_decode "1634" = [x16; x34].
Proof. repeat split; reflexivity. Qed.

Example join_skips_undefined_and_null :
  Array_join "," [VString "a"; VUndefined; VNull; VBool true; VArray [VString "b"; VString "c"]]
  = Return "a,,,true,b,c"%string.
Proof. reflexivity. Qed.

(** An object converts through the inherited [toString], unless an own
    [toString] property, which is not a function, hides it. *)
Example object_conversion :
  ToString (VObject ∅) = Return "[object Object]"%string
  /\ ToString unconvertible
     = Throw (TypeError "Cannot convert object to primitive value")
  /\ Array_join "," [VString "a"; unconvertible]
     = Throw (TypeError "Cannot convert object to primitive value").
Proof. repeat split; reflexivity. Qed.

(** ** The example of the specification, run *)

Example sha512_abc :
  hex_encode (SHA512.digest (bytes_of_ascii_string "abc")) =
  "ddaf35a193617abacc417349ae20413112e6fa4e89a97ea20a9eeee64b55d39a2192992a274fc1a836ba3c23a3feebbd454d4423643ce80e2a9ac94fa54ca49f"%string.
Proof. vm_compute. reflexivity. Qed.

Lemma example_digest :
  hmac_sha512 (utf8 "s3cr3t")
    (utf8 "ORDER1,M001,success,successful,T123,B01,C,100.00,0.00")
  = hex_decode example_DV.
Proof. vm_compute. reflexivity. Qed.

Lemma model_computes_hmac : computes_hmac generateHmacSha512_model.
Proof. intros data key _ _. reflexivity. Qed.

Lemma example_carries dv :
  carries (object_of (example_fields dv)) (example_fields dv).
Proof. repeat split; vm_compute; reflexivity. Qed.

Lemma example_result dv :
  result (verifyResponse "successful" generateHmacSha512_model no_array_likes
            (VObject (object_of (example_fields dv))) (VString "s3cr3t"))
  = Return (bytes_eqb (hex_decode example_DV) (hex_decode dv)).
Proof.
  rewrite (carried_result _ _ _ _ (example_fields dv) "s3cr3t"
             model_computes_hmac (example_carries dv))
    by (reflexivity || discriminate).
  change (canonical_message (example_fields dv))
    with "ORDER1,M001,success,successful,T123,B01,C,100.00,0.00"%string.
  rewrite example_digest. reflexivity.
Qed.

(** The end-to-end example: with the digest of the canonical message as
    [DV] the response verifies, and with one digit changed it does not. *)
Example example_verifies :
  result (verifyResponse "successful" generateHmacSha512_model no_array_likes
            (VObject (object_of (example_fields example_DV))) (VString "s3cr3t"))
  = Return true.
Proof. rewrite example_result. vm_compute. reflexivity. Qed.

Example example_tampered :
  result (verifyResponse "successful" generateHmacSha512_model no_array_likes
            (VObject (object_of (example_fields
              "b0cb792269655762c73bacd62abb7ca5e67456b45e78012124bc223a5977ef58f5f7e81ee7d6a4db41b5651114bb4215948e84ea924ec861a45c5fdd2c4a7d51")))
            (VString "s3cr3t"))
  = Return false.
Proof. rewrite example_result. vm_compute. reflexivity. Qed.

Lemma example_complete dv : complete (object_of (example_fields dv)).
Proof. repeat constructor; vm_compute; eauto. Qed.

Lemma example_joined dv :
  joined (object_of (example_fields dv))
  = Return "ORDER1,M001,success,successful,T123,B01,C,100.00,0.00"%string.
Proof. vm_compute. reflexivity. Qed.

Lemma model_throws_readable data key :
  throws_readable (generateHmacSha512_model data key).
Proof.
  intros e. destruct key; cbn; try discriminate;
    intros [= <-]; apply readable_TypeError.
Qed.

Lemma no_array_likes_readable o : throws_readable (lift (no_array_likes o)).
Proof. intros e [= <-]. apply readable_TypeError. Qed.

Lemma throwing_payload_readable : payload_readable throwing_payload.
Proof.
  intros key e H. apply lookup_singleton_Some in H as [_ [= <-]].
  apply readable_Error.
Qed.

(** A value without a conversion to a string ends the run in the [catch]
    block before any hash is computed: as [RC], in the message of the
    informational entry, and as a signed field, in the join. *)
Example unconvertible_RC_logged :
  verifyResponse "successful" generateHmacSha512_model no_array_likes
    (VObject {[ "RC" := unconvertible ]}) (VString "s3cr3t")
  = ([ConsoleError (TypeError "Cannot convert object to primitive value")],
     Return false).
Proof. vm_compute. reflexivity. Qed.

Example unconvertible_field_logged :
  verifyResponse "successful" generateHmacSha512_model no_array_likes
    (VObject (<["PRN" := unconvertible]> (object_of (example_fields example_DV))))
    (VString "s3cr3t")
  = ([ConsoleError (TypeError "Cannot convert object to primitive value")],
     Return false).
Proof. vm_compute. reflexivity. Qed.

(** An accessor that throws an ordinary error is caught. *)
Example throwing_payload_caught :
  verifyResponse_payload "successful" generateHmacSha512_model no_array_likes
    throwing_payload (VString "s3cr3t")
  = ([ConsoleError (Error "RC getter")], Return false).
Proof. vm_compute. reflexivity. Qed.

(** C2 as stated fails: the payload is an object whose [RC] is an accessor
    throwing an error whose [message] is an accessor that throws in turn;
    the [catch] block reads that message, and the second exception reaches
    the caller with nothing logged. *)
Lemma accessor_payload_throws :
  verifyResponse_payload "successful" generateHmacSha512_model no_array_likes
    accessor_payload (VString "s3cr3t")
  = ([], Throw (Error "message getter"))
  /\ forall b,
       result (verifyResponse_payload "successful" generateHmacSha512_model
                 no_array_likes accessor_payload (VString "s3cr3t"))
       <> Return b.
Proof. split; [vm_compute; reflexivity|]. intros b. vm_compute. discriminate. Qed.

(** C7 as stated fails: the correct 128 digits followed by "zz" are not a
    well-formed hex string, yet the response, which has the success sentinel
    and all nine fields, verifies. *)
Lemma malformed_DV_accepted :
  let props := object_of (example_fields (example_DV +:+ "zz")) in
  computes_hmac generateHmacSha512_model
  /\ props !! "RC" = Some (VString "successful")
  /\ complete props
  /\ props !! "DV" = Some (VString (example_DV +:+ "zz"))
  /\ well_formed_hex (example_DV +:+ "zz") = false
  /\ result (verifyResponse "successful" generateHmacSha512_model no_array_likes
               (VObject props) (VString "s3cr3t"))
     = Return true.
Proof.
  cbv zeta. split; [apply model_computes_hmac|].
  split; [vm_compute; reflexivity|]. split; [apply example_complete|].
  split; [vm_compute; reflexivity|]. split; [vm_compute; reflexivity|].
  rewrite example_result. vm_compute. reflexivity.
Qed.

(** ** The theorems at concrete inputs *)


Lemma verifyResponse_never_throws_witness :
  (forall data key, throws_readable (generateHmacSha512_model data key))
  /\ (forall o, throws_readable (lift (no_array_likes o)))
  /\ payload_readable throwing_payload
  /\ exists b,
       result (verifyResponse_payload "successful" generateHmacSha512_model
                 no_array_likes throwing_payload (VString "s3cr3t")) = Return b
       /\ b = false
       /\ trace (verifyResponse_payload "successful" generateHmacSha512_model
                   no_array_likes throwing_payload (VString "s3cr3t"))
          = trace (verifyResponse_try "successful" generateHmacSha512_model
                     no_array_likes throwing_payload (VString "s3cr3t"))
            ++ [ConsoleError (Error "RC getter")].
Proof.
  split; [exact model_throws_readable|]. split; [exact no_array_likes_readable|].
  split; [exact throwing_payload_readable|].
  exact (verifyResponse_never_throws "successful" generateHmacSha512_model
           no_array_likes throwing_payload (VString "s3cr3t")
           model_throws_readable no_array_likes_readable throwing_payload_readable).
Defined.

Lemma status_gate_rejects_witness :
  RC_of failed_response <> VString "successful"
  /\ RC_of VNull <> VString "successful"
  /\ result (verifyResponse "successful" generateHmacSha512_model no_array_likes
               failed_response (VString "s3cr3t")) = Return false
  /\ List.filter is_hmac
       (trace (verifyResponse "successful" generateHmacSha512_model no_array_likes
                 failed_response (VString "s3cr3t"))) = []
  /\ (truthy failed_response = true -> truthy (VString "s3cr3t") = true ->
      trace (verifyResponse "successful" generateHmacSha512_model no_array_likes
               failed_response (VString "s3cr3t"))
      = [ConsoleInfo (RC_of failed_response)])
  /\ result (verifyResponse "successful" generateHmacSha512_model no_array_likes
               failed_response (VString "s3cr3t"))
     = result (verifyResponse "successful" generateHmacSha512_model no_array_likes
                 VNull (VString "")).
Proof.
  assert (H1 : RC_of failed_response <> VString "successful")
    by (vm_compute; discriminate).
  assert (H2 : RC_of VNull <> VString "successful") by (vm_compute; discriminate).
  split; [exact H1|]. split; [exact H2|].
  exact (status_gate_rejects "successful" generateHmacSha512_model no_array_likes
           failed_response (VString "s3cr3t") VNull (VString "") H1 H2).
Defined.

Lemma missing_field_rejected_witness :
  In "PRN"%string order
  /\ ({[ "RC" := VString "successful" ]} : gmap string value) !! "PRN" = None
  /\ result (verifyResponse "successful" generateHmacSha512_model no_array_likes
               (VObject {[ "RC" := VString "successful" ]}) (VString "s3cr3t"))
     = Return false.
Proof.
  assert (H1 : In "PRN"%string order) by (left; reflexivity).
  assert (H2 : ({[ "RC" := VString "successful" ]} : gmap string value) !! "PRN" = None)
    by (vm_compute; reflexivity).
  split; [exact H1|]. split; [exact H2|].
  exact (missing_field_rejected "successful" generateHmacSha512_model no_array_likes
           _ _ (VString "s3cr3t") H1 H2).
Defined.

Lemma message_is_canonical_witness :
  signed_fields (object_of (example_fields example_DV)) (example_fields example_DV)
  /\ concatenatedValues (object_of (example_fields example_DV))
     = canonical_message (example_fields example_DV)
  /\ List.filter is_hmac
       (trace (verifyResponse "successful" generateHmacSha512_model no_array_likes
                 (VObject (object_of (example_fields example_DV))) (VString "s3cr3t")))
     = [HmacComputed "s3cr3t" (canonical_message (example_fields example_DV))].
Proof.
  assert (Hh : computes_hmac generateHmacSha512_model)
    by (intros data key _ _; reflexivity).
  assert (Hs : signed_fields (object_of (example_fields example_DV))
                 (example_fields example_DV))
    by (repeat split; vm_compute; reflexivity).
  assert (Hk : "s3cr3t"%string <> ""%string) by discriminate.
  destruct (message_is_canonical "successful" generateHmacSha512_model
              no_array_likes _ _ "s3cr3t" Hh Hs eq_refl Hk) as (Hm & Ht & _).
  split; [exact Hs|]. split; [exact Hm|exact Ht].
Defined.

Lemma malformed_DV_truncated_witness :
  let dv := (example_DV +:+ "zz")%string in
  let props := object_of (example_fields dv) in
  complete props
  /\ props !! "DV" = Some (VString dv)
  /\ well_formed_hex dv = false
  /\ exists prefix rest,
       dv = (prefix +:+ rest)%string
       /\ well_formed_hex prefix = true
       /\ rest <> ""%string
       /\ result (Buffer_from no_array_likes (VString dv)) = Return (hex_decode prefix)
       /\ (hex_decode prefix
           = hmac_sha512 (utf8 "s3cr3t") (utf8 (concatenatedValues props)) ->
           result (verifyResponse "successful" generateHmacSha512_model
                     no_array_likes (VObject props) (VString "s3cr3t"))
           = Return true).
Proof.
  cbv zeta.
  assert (Hh : computes_hmac generateHmacSha512_model)
    by (intros data key _ _; reflexivity).
  assert (Hrc : object_of (example_fields (example_DV +:+ "zz")) !! "RC"
                = Some (VString "successful")) by (vm_compute; reflexivity).
  assert (Hall : complete (object_of (example_fields (example_DV +:+ "zz"))))
    by (repeat constructor; vm_compute; eauto).
  assert (Hdv : object_of (example_fields (example_DV +:+ "zz")) !! "DV"
                = Some (VString (example_DV +:+ "zz"))) by (vm_compute; reflexivity).
  assert (Hbad : well_formed_hex (example_DV +:+ "zz") = false)
    by (vm_compute; reflexivity).
  assert (Hk : "s3cr3t"%string <> ""%string) by discriminate.
  assert (Hconv : convertible (object_of (example_fields (example_DV +:+ "zz"))))
    by (eexists; apply example_joined).
  destruct (malformed_DV_truncated "successful" generateHmacSha512_model
              no_array_likes _ _ "s3cr3t" Hh Hrc Hall Hdv Hbad)
    as (prefix & rest & Hsplit & Hwf & Hrest & _ & Hbuf & _ & _ & Htrue).
  split; [exact Hall|]. split; [exact Hdv|]. split; [exact Hbad|].
  exists prefix, rest.
  split; [exact Hsplit|]. split; [exact Hwf|]. split; [exact Hrest|].
  split; [exact Hbuf|exact (Htrue Hk Hconv)].
Defined.

Lemma length_mismatch_rejected_witness :
  complete (object_of (example_fields "abcd"))
  /\ result (Buffer_from no_array_likes
               (default VUndefined (object_of (example_fields "abcd") !! "DV")))
     = Return [xab; xcd]
  /\ result (verifyResponse "successful" generateHmacSha512_model no_array_likes
               (VObject (object_of (example_fields "abcd"))) (VString "s3cr3t"))
     = Return false.
Proof.
  assert (Hh : computes_hmac generateHmacSha512_model)
    by (intros data key _ _; reflexivity).
  assert (Hrc : object_of (example_fields "abcd") !! "RC"
                = Some (VString "successful")) by (vm_compute; reflexivity).
  assert (Hall : complete (object_of (example_fields "abcd")))
    by (repeat constructor; vm_compute; eauto).
  assert (Hdv : result (Buffer_from no_array_likes
                  (default VUndefined (object_of (example_fields "abcd") !! "DV")))
                = Return [xab; xcd]) by (vm_compute; reflexivity).
  assert (Hlen : length [xab; xcd] <> 64%nat) by (vm_compute; lia).
  split; [exact Hall|]. split; [exact Hdv|].
  exact (proj1 (length_mismatch_rejected "successful" generateHmacSha512_model
                  no_array_likes _ "s3cr3t" _ Hh Hrc Hall Hdv Hlen)).
Defined.

Lemma absent_DV_rejected_witness :
  delete "DV" (object_of (example_fields "")) !! "DV" = None
  /\ complete (delete "DV" (object_of (example_fields "")))
  /\ result (verifyResponse "successful" generateHmacSha512_model no_array_likes
               (VObject (delete "DV" (object_of (example_fields ""))))
               (VString "s3cr3t"))
     = Return false.
Proof.
  assert (Hrc : delete "DV" (object_of (example_fields "")) !! "RC"
                = Some (VString "successful")) by (vm_compute; reflexivity).
  assert (Hall : complete (delete "DV" (object_of (example_fields ""))))
    by (repeat constructor; vm_compute; eauto).
  assert (Hdv : delete "DV" (object_of (example_fields "")) !! "DV" = None)
    by (vm_compute; reflexivity).
  split; [exact Hdv|]. split; [exact Hall|].
  exact (proj1 (absent_DV_rejected "successful" generateHmacSha512_model
                  no_array_likes _ (VString "s3cr3t") Hrc Hall Hdv)
           model_throws_readable).
Defined.

Lemma DV_case_insensitive_witness :
  lower "AB12" = lower "ab12"
  /\ verifyResponse "successful" generateHmacSha512_model no_array_likes
       (VObject (<["DV" := VString "AB12"]> (object_of (example_fields ""))))
       (VString "s3cr3t")
     = verifyResponse "successful" generateHmacSha512_model no_array_likes
         (VObject (<["DV" := VString "ab12"]> (object_of (example_fields ""))))
         (VString "s3cr3t").
Proof.
  assert (H : lower "AB12" = lower "ab12") by (vm_compute; reflexivity).
  split; [exact H|].
  exact (DV_case_insensitive "successful" generateHmacSha512_model no_array_likes
           _ (VString "s3cr3t") _ _ H).
Defined.

(** ** The further properties at concrete inputs *)

Lemma example_message_built dv :
  concatenatedValues (object_of (example_fields dv)) = example_message.
Proof. vm_compute. reflexivity. Qed.

Lemma example_object_DV dv :
  <["DV" := VString dv]> (object_of (example_fields "")) = object_of (example_fields dv).
Proof. vm_compute. reflexivity. Qed.

Lemma signed_response_verifies_witness :
  carries (object_of (example_fields example_DV)) (example_fields example_DV)
  /\ DV (example_fields example_DV)
     = hex_encode (hmac_sha512 (utf8 "s3cr3t")
                     (utf8 (canonical_message (example_fields example_DV))))
  /\ verifyResponse "successful" generateHmacSha512_model no_array_likes
       (VObject (object_of (example_fields example_DV))) (VString "s3cr3t")
     = ([HmacComputed "s3cr3t" (canonical_message (example_fields example_DV))],
        Return true).
Proof.
  assert (Hh : computes_hmac generateHmacSha512_model)
    by (intros data key _ _; reflexivity).
  assert (Hc : carries (object_of (example_fields example_DV))
                 (example_fields example_DV))
    by (repeat split; vm_compute; reflexivity).
  assert (Hk : "s3cr3t"%string <> ""%string) by discriminate.
  assert (Hsig : DV (example_fields example_DV)
                 = hex_encode (hmac_sha512 (utf8 "s3cr3t")
                     (utf8 (canonical_message (example_fields example_DV))))).
  { change (canonical_message (example_fields example_DV)) with example_message.
    unfold example_message. rewrite example_digest. vm_compute. reflexivity. }
  split; [exact Hc|]. split; [exact Hsig|].
  exact (signed_response_verifies "successful" generateHmacSha512_model
           no_array_likes _ _ "s3cr3t" Hh Hc eq_refl Hk Hsig).
Defined.

Lemma verified_DV_is_digest_witness :
  result (verifyResponse "successful" generateHmacSha512_model no_array_likes
            (VObject (object_of (example_fields example_DV))) (VString "s3cr3t"))
  = Return true
  /\ lower (String.substring 0 128 (DV (example_fields example_DV)))
     = hex_encode (hmac_sha512 (utf8 "s3cr3t")
                     (utf8 (canonical_message (example_fields example_DV)))).
Proof.
  assert (Hh : computes_hmac generateHmacSha512_model)
    by (intros data key _ _; reflexivity).
  assert (Hc : carries (object_of (example_fields example_DV))
                 (example_fields example_DV))
    by (repeat split; vm_compute; reflexivity).
  assert (Hk : "s3cr3t"%string <> ""%string) by discriminate.
  assert (Ht : result (verifyResponse "successful" generateHmacSha512_model
                  no_array_likes
                  (VObject (object_of (example_fields example_DV)))
                  (VString "s3cr3t")) = Return true)
    by (rewrite example_result; vm_compute; reflexivity).
  split; [exact Ht|].
  exact (proj1 (proj2 (verified_DV_is_digest "successful" generateHmacSha512_model
                         no_array_likes _ _ "s3cr3t" Hh Hc Hk Ht))).
Defined.

Lemma digest_mismatch_silent_witness :
  joined (object_of (example_fields tampered_DV)) = Return example_message
  /\ length (hex_decode tampered_DV) = 64%nat
  /\ hex_decode tampered_DV <> hmac_sha512 (utf8 "s3cr3t") (utf8 example_message)
  /\ verifyResponse "successful" generateHmacSha512_model no_array_likes
       (VObject (object_of (example_fields tampered_DV))) (VString "s3cr3t")
     = ([HmacComputed "s3cr3t" example_message], Return false).
Proof.
  assert (Hh : computes_hmac generateHmacSha512_model)
    by (intros data key _ _; reflexivity).
  assert (Hk : "s3cr3t"%string <> ""%string) by discriminate.
  assert (Hrc : object_of (example_fields tampered_DV) !! "RC"
                = Some (VString "successful")) by (vm_compute; reflexivity).
  assert (Hall : complete (object_of (example_fields tampered_DV)))
    by (repeat constructor; vm_compute; eauto).
  assert (Hj : joined (object_of (example_fields tampered_DV)) = Return example_message)
    by (vm_compute; reflexivity).
  assert (Hdv : result (Buffer_from no_array_likes
                  (default VUndefined (object_of (example_fields tampered_DV) !! "DV")))
                = Return (hex_decode tampered_DV)) by (vm_compute; reflexivity).
  assert (Hlen : length (hex_decode tampered_DV) = 64%nat)
    by (vm_compute; reflexivity).
  assert (Hne : hex_decode tampered_DV
                <> hmac_sha512 (utf8 "s3cr3t") (utf8 example_message)).
  { unfold example_message. rewrite example_digest. vm_compute. discriminate. }
  split; [exact Hj|]. split; [exact Hlen|]. split; [exact Hne|].
  exact (digest_mismatch_silent "successful" generateHmacSha512_model no_array_likes
           _ "s3cr3t" _ _ Hh Hk Hrc Hall Hj Hdv Hlen Hne).
Defined.

Lemma missing_fields_reported_witness :
  missing ({[ "RC" := VString "successful"; "PID" := VString "M001" ]}
             : gmap string value) order <> []
  /\ verifyResponse "successful" generateHmacSha512_model no_array_likes
       (VObject {[ "RC" := VString "successful"; "PID" := VString "M001" ]})
       (VString "s3cr3t")
     = ([ConsoleError
           (Error "Missing required fields in response: PRN, PS, UID, BC, INI, P_AMT, R_AMT")],
        Return false).
Proof.
  assert (Hk : truthy (VString "s3cr3t") = true) by reflexivity.
  assert (Hrc : ({[ "RC" := VString "successful"; "PID" := VString "M001" ]}
                   : gmap string value) !! "RC" = Some (VString "successful"))
    by (vm_compute; reflexivity).
  assert (Hm : missing ({[ "RC" := VString "successful"; "PID" := VString "M001" ]}
                          : gmap string value) order <> [])
    by (vm_compute; discriminate).
  split; [exact Hm|].
  refine (eq_trans (proj1 (missing_fields_reported "successful"
            generateHmacSha512_model no_array_likes _ (VString "s3cr3t") Hk Hrc Hm)) _).
  vm_compute. reflexivity.
Defined.

Lemma extra_field_ignored_witness :
  ~ In "utm_source"%string order
  /\ verifyResponse "successful" generateHmacSha512_model no_array_likes
       (VObject (<["utm_source" := VString "mail"]> (object_of (example_fields example_DV))))
       (VString "s3cr3t")
     = verifyResponse "successful" generateHmacSha512_model no_array_likes
         (VObject (object_of (example_fields example_DV))) (VString "s3cr3t").
Proof.
  assert (H1 : ~ In "utm_source"%string order) by (cbn; intuition discriminate).
  assert (H2 : "utm_source"%string <> "DV"%string) by discriminate.
  split; [exact H1|].
  exact (extra_field_ignored "successful" generateHmacSha512_model no_array_likes
           _ _ _ (VString "s3cr3t") H1 H2).
Defined.

Lemma nullish_field_is_empty_witness :
  In "PS"%string order
  /\ verifyResponse "successful" generateHmacSha512_model no_array_likes
       (VObject (<["PS" := VUndefined]> (object_of (example_fields example_DV))))
       (VString "s3cr3t")
     = verifyResponse "successful" generateHmacSha512_model no_array_likes
         (VObject (<["PS" := VString ""]> (object_of (example_fields example_DV))))
         (VString "s3cr3t").
Proof.
  assert (H1 : In "PS"%string order) by (cbn; tauto).
  assert (H2 : "PS"%string <> "RC"%string) by discriminate.
  split; [exact H1|].
  exact (nullish_field_is_empty "successful" generateHmacSha512_model no_array_likes
           _ _ VUndefined (VString "s3cr3t") H1 H2 (or_introl eq_refl)).
Defined.

Lemma helper_failure_logged_witness :
  complete (object_of (example_fields example_DV))
  /\ joined (object_of (example_fields example_DV)) = Return example_message
  /\ readable (TypeError "ERR_INVALID_ARG_TYPE")
  /\ verifyResponse "successful" empty_hash_helper no_array_likes
       (VObject (object_of (example_fields example_DV))) (VString "s3cr3t")
     = ([ConsoleError (Error "Failed to generate hash for response verification")],
        Return false)
  /\ verifyResponse "successful" generateHmacSha512_model no_array_likes
       (VObject (object_of (example_fields example_DV))) (VBool true)
     = ([ConsoleError (TypeError "ERR_INVALID_ARG_TYPE")], Return false).
Proof.
  assert (Hrc : object_of (example_fields example_DV) !! "RC"
                = Some (VString "successful")) by (vm_compute; reflexivity).
  assert (Hall : complete (object_of (example_fields example_DV)))
    by (repeat constructor; vm_compute; eauto).
  assert (Hj : joined (object_of (example_fields example_DV)) = Return example_message)
    by (vm_compute; reflexivity).
  assert (Hre : readable (TypeError "ERR_INVALID_ARG_TYPE"))
    by (eexists; reflexivity).
  split; [exact Hall|]. split; [exact Hj|]. split; [exact Hre|]. split.
  - exact (proj1 (helper_failure_logged "successful" empty_hash_helper no_array_likes
                    _ (VString "s3cr3t") _ [] eq_refl Hrc Hall Hj) eq_refl).
  - exact (proj2 (helper_failure_logged "successful" generateHmacSha512_model
                    no_array_likes _ (VBool true) _ [] eq_refl Hrc Hall Hj)
             _ Hre eq_refl).
Defined.

Lemma accepted_only_if_witness :
  result (verifyResponse "successful" generateHmacSha512_model no_array_likes
            (VObject (object_of (example_fields example_DV))) (VString "s3cr3t"))
  = Return true
  /\ exists props tr calculatedHash,
       VObject (object_of (example_fields example_DV)) = VObject props
       /\ truthy (VString "s3cr3t") = true
       /\ props !! "RC" = Some (VString "successful")
       /\ complete props
       /\ generateHmacSha512_model (concatenatedValues props) (VString "s3cr3t")
          = (tr, Return calculatedHash)
       /\ calculatedHash <> ""%string
       /\ result (Buffer_from no_array_likes (default VUndefined (props !! "DV")))
          = Return (hex_decode calculatedHash).
Proof.
  assert (Ht : result (verifyResponse "successful" generateHmacSha512_model
                  no_array_likes
                  (VObject (object_of (example_fields example_DV)))
                  (VString "s3cr3t")) = Return true)
    by (rewrite example_result; vm_compute; reflexivity).
  split; [exact Ht|].
  exact (accepted_only_if "successful" generateHmacSha512_model no_array_likes
           _ _ Ht).
Defined.

Lemma tampered_DV_rejected_witness :
  result (verifyResponse "successful" generateHmacSha512_model no_array_likes
            (VObject (<["DV" := VString example_DV]> (object_of (example_fields ""))))
            (VString "s3cr3t")) = Return true
  /\ hex_decode tampered_DV <> hex_decode example_DV
  /\ result (verifyResponse "successful" generateHmacSha512_model no_array_likes
               (VObject (<["DV" := VString tampered_DV]> (object_of (example_fields ""))))
               (VString "s3cr3t")) = Return false.
Proof.
  assert (Hh : computes_hmac generateHmacSha512_model)
    by (intros data key _ _; reflexivity).
  assert (Ht : result (verifyResponse "successful" generateHmacSha512_model
                  no_array_likes
                  (VObject (<["DV" := VString example_DV]> (object_of (example_fields ""))))
                  (VString "s3cr3t")) = Return true)
    by (rewrite example_object_DV, example_result; vm_compute; reflexivity).
  assert (Hne : hex_decode tampered_DV <> hex_decode example_DV)
    by (vm_compute; discriminate).
  split; [exact Ht|]. split; [exact Hne|].
  exact (tampered_DV_rejected "successful" generateHmacSha512_model no_array_likes
           _ "s3cr3t" _ _ Hh Ht Hne).
Defined.

Lemma DV_suffix_ignored_witness :
  well_formed_hex example_DV = true /\ hex_decode "zz" = []
  /\ verifyResponse "successful" generateHmacSha512_model no_array_likes
       (VObject (<["DV" := VString (example_DV +:+ "zz")]>
                   (object_of (example_fields ""))))
       (VString "s3cr3t")
     = verifyResponse "successful" generateHmacSha512_model no_array_likes
         (VObject (<["DV" := VString example_DV]> (object_of (example_fields ""))))
         (VString "s3cr3t")
  /\ result (verifyResponse "successful" generateHmacSha512_model no_array_likes
               (VObject (<["DV" := VString example_DV]>
                           (object_of (example_fields ""))))
               (VString "s3cr3t"))
     = Return true.
Proof.
  assert (H1 : well_formed_hex example_DV = true) by (vm_compute; reflexivity).
  assert (H2 : hex_decode "zz" = []) by (vm_compute; reflexivity).
  split; [exact H1|]. split; [exact H2|]. split.
  - exact (DV_suffix_ignored "successful" generateHmacSha512_model no_array_likes
             _ (VString "s3cr3t") _ _ H1 H2).
  - rewrite example_object_DV, example_result. vm_compute. reflexivity.
Defined.

Lemma hex_encode_hex_decode_witness :
  well_formed_hex "AB12" = true
  /\ hex_encode (hex_decode "AB12") = "ab12"%string.
Proof.
  assert (H : well_formed_hex "AB12" = true) by (vm_compute; reflexivity).
  split; [exact H|].
  exact (proj1 (hex_encode_hex_decode "AB12" H)).
Defined.

Lemma well_formed_DV_accepted_iff_witness :
  well_formed_hex (DV (example_fields example_DV)) = true
  /\ (result (verifyResponse "successful" generateHmacSha512_model no_array_likes
                (VObject (object_of (example_fields example_DV))) (VString "s3cr3t"))
      = Return true
      <-> RC (example_fields example_DV) = "successful"%string
          /\ lower (DV (example_fields example_DV))
             = hex_encode (hmac_sha512 (utf8 "s3cr3t")
                             (utf8 (canonical_message (example_fields example_DV))))).
Proof.
  assert (Hh : computes_hmac generateHmacSha512_model)
    by (intros data key _ _; reflexivity).
  assert (Hc : carries (object_of (example_fields example_DV))
                 (example_fields example_DV))
    by (repeat split; vm_compute; reflexivity).
  assert (Hk : "s3cr3t"%string <> ""%string) by discriminate.
  assert (Hwf : well_formed_hex (DV (example_fields example_DV)) = true)
    by (vm_compute; reflexivity).
  split; [exact Hwf|].
  exact (well_formed_DV_accepted_iff "successful" generateHmacSha512_model
           no_array_likes _ _ "s3cr3t" Hh Hc Hk Hwf).
Defined.

Lemma message_determines_fields_witness :
  comma_free_fields (example_fields example_DV)
  /\ comma_free_fields (example_fields tampered_DV)
  /\ concatenatedValues (object_of (example_fields example_DV))
     = concatenatedValues (object_of (example_fields tampered_DV))
  /\ PRN (example_fields example_DV) = PRN (example_fields tampered_DV)
  /\ R_AMT (example_fields example_DV) = R_AMT (example_fields tampered_DV).
Proof.
  assert (Hs1 : signed_fields (object_of (example_fields example_DV))
                  (example_fields example_DV))
    by (repeat split; vm_compute; reflexivity).
  assert (Hs2 : signed_fields (object_of (example_fields tampered_DV))
                  (example_fields tampered_DV))
    by (repeat split; vm_compute; reflexivity).
  assert (Hf1 : comma_free_fields (example_fields example_DV))
    by (repeat split; vm_compute; reflexivity).
  assert (Hf2 : comma_free_fields (example_fields tampered_DV))
    by (repeat split; vm_compute; reflexivity).
  assert (Hm : concatenatedValues (object_of (example_fields example_DV))
               = concatenatedValues (object_of (example_fields tampered_DV)))
    by (vm_compute; reflexivity).
  destruct (message_determines_fields _ _ _ _ Hs1 Hs2 Hf1 Hf2 Hm)
    as (E1 & _ & _ & _ & _ & _ & _ & _ & E9).
  split; [exact Hf1|]. split; [exact Hf2|]. split; [exact Hm|].
  split; [exact E1|exact E9].
Defined.
